(** * mpserver: session-cached matrix-profile handlers

    A shallow embedding of the Go HTTP handlers of [mpserver] (package
    [main]): [smooth], [fetchData], [calculateMP], [topKMotifs],
    [topKDiscords] and [getMP].

    The numeric library [go-matrixprofile], [float64] arithmetic and the
    platform (number parsing, the data file, the serializer) are
    collaborators of the handlers; they are taken as the interfaces
    [matrixprofile.Engine], [Float64] and [Platform], whose operations
    return a Go-style [(value, error)] result.  A run-time panic (slice
    bounds out of range) is an outcome of its own.  The request counter
    and the CORS headers do not influence the responses and are left
    out. *)

From Stdlib Require Import ZArith List String Ascii Bool Lia.
Import ListNotations.
Local Open Scope string_scope.
Local Open Scope Z_scope.

Set Implicit Arguments.

(** ** Go values *)

(** A Go [error] value, identified with its message. *)
Definition error := string.

(** The pair [(v, err)] returned by a fallible Go function. *)
Inductive result (A : Type) : Type :=
| Ok (a : A)
| Err (e : error).
Arguments Ok {A} a.
Arguments Err {A} e.

(** A computation that may also panic at run time. *)
Inductive exec (A : Type) : Type :=
| Done (a : A)
| Failed (e : error)
| Panics.
Arguments Done {A} a.
Arguments Failed {A} e.
Arguments Panics {A}.

Definition exec_bind {A B} (c : exec A) (k : A -> exec B) : exec B :=
  match c with
  | Done a => k a
  | Failed e => Failed e
  | Panics => Panics
  end.

Notation "x <- c ;; k" := (exec_bind c (fun x => k))
  (at level 61, c at next level, right associativity).

Definition of_result {A} (r : result A) : exec A :=
  match r with
  | Ok a => Done a
  | Err e => Failed e
  end.

(** Go's [int] is 64 bits wide on the platforms the server is built for. *)
Definition int_min : Z := - 2 ^ 63.
Definition int_max : Z := 2 ^ 63 - 1.
Definition is_int (z : Z) : Prop := int_min <= z <= int_max.

(** Two's complement wrap-around of an arithmetic result. *)
Definition wrap (z : Z) : Z := (z + 2 ^ 63) mod 2 ^ 64 - 2 ^ 63.

Definition int_add (a b : Z) : Z := wrap (a + b).
Definition int_sub (a b : Z) : Z := wrap (a - b).
(** Go's [/] on integers truncates toward zero. *)
Definition int_div (a b : Z) : Z := wrap (Z.quot a b).

Definition len {A} (l : list A) : Z := Z.of_nat (List.length l).

(** The slice expression [a[lo:hi]]; [None] is the bounds panic.  The
    slices sliced by the handlers are freshly allocated or decoded, so
    their capacity is their length. *)
Definition slice {A} (a : list A) (lo hi : Z) : option (list A) :=
  if (0 <=? lo) && (lo <=? hi) && (hi <=? len a)
  then Some (firstn (Z.to_nat (hi - lo)) (skipn (Z.to_nat lo) a))
  else None.

(** ** [float64] *)

(** The operations on [float64] that the handlers themselves perform. *)
Class Float64 (F : Type) : Type := {
  fzero : F;
  fadd : F -> F -> F;
  fdiv : F -> F -> F;
  float64_of_int : Z -> F
}.

Section Smooth.
Context {F : Type} {FF : Float64 F}.

(** The bounds [s], [e] that [smooth] computes for position [i] of a
    slice of length [n]. *)
Definition window (n m i : Z) : Z * Z :=
  let leftSpan := int_div m 2 in
  let rightSpan := int_div m 2 in
  let s := int_sub i leftSpan in
  let s := if s <? 0 then 0 else s in
  let e := int_add (int_add i rightSpan) 1 in
  let e := if e >? n then n else e in
  (s, e).

(** [for _, d := range data[s:e] { sum += d }] *)
Definition sum_range (w : list F) : F :=
  fold_left fadd w fzero.

(** One iteration of the outer loop: the value stored in [sdata[i]]. *)
Definition smooth_at (data : list F) (m i : Z) : option F :=
  let '(s, e) := window (len data) m i in
  match slice data s e with
  | None => None
  | Some w => Some (fdiv (sum_range w) (float64_of_int (int_sub e s)))
  end.

(** The outer loop over the remaining positions [i, i+1, ...]. *)
Fixpoint smooth_from (data : list F) (m : Z) (i : Z) (todo : list F)
  : option (list F) :=
  match todo with
  | [] => Some []
  | _ :: todo' =>
      match smooth_at data m i with
      | None => None
      | Some v =>
          match smooth_from data m (i + 1) todo' with
          | None => None
          | Some vs => Some (v :: vs)
          end
      end
  end.

(** smooth performs a non causal averaging of neighboring data points.
    [None] is a run-time panic. *)
Definition smooth (data : list F) (m : Z) : option (list F) :=
  smooth_from data m 0 data.

End Smooth.

(** ** The [matrixprofile] package, as the handlers see it *)

Module matrixprofile.

(** The annotation-vector kinds [matrixprofile.DefaultAV],
    [ComplexityAV], [MeanStdAV] and [ClippingAV]. *)
Inductive AnnotationVector : Type :=
| DefaultAV
| ComplexityAV
| MeanStdAV
| ClippingAV.

(** Modelled from the spec: the struct [matrixprofile.MatrixProfile] is
    declared by the numeric library.  The artifact holds the original
    series [A], the window length [M], the distance sequence [MP], the
    index sequence [Idx] and the currently active annotation vector
    [AV]. *)
Record MatrixProfile (F : Type) : Type := {
  A : list F;
  M : Z;
  MP : list F;
  Idx : list Z;
  AV : AnnotationVector
}.

(** [mp.AV = av] on the handler's local copy. *)
Definition set_AV {F} (mp : MatrixProfile F) (av : AnnotationVector)
  : MatrixProfile F :=
  {| A := A mp; M := M mp; MP := MP mp; Idx := Idx mp; AV := av |}.

(** A motif group: the start indices of its members and their distance. *)
Record MotifGroup (F : Type) : Type := {
  MG_Idx : list Z;
  MG_MinDist : F
}.

(** The library calls made by the handlers.  [New a m] is
    [matrixprofile.New(a, nil, m)]; [Stomp] fills the profile of the
    artifact it is called on. *)
Class Engine (F : Type) : Type := {
  New : list F -> Z -> result (MatrixProfile F);
  Stomp : MatrixProfile F -> Z -> result (MatrixProfile F);
  Segment : MatrixProfile F -> Z * F * list F;
  TopKMotifs : MatrixProfile F -> Z -> F -> result (list (MotifGroup F));
  TopKDiscords : MatrixProfile F -> Z -> Z -> result (list Z);
  ZNormalize : list F -> result (list F);
  GetAV : MatrixProfile F -> result (list F);
  ApplyAV : MatrixProfile F -> list F -> result (list F)
}.

End matrixprofile.

(** ** The rest of the environment *)

(** What the handlers obtain from the platform: [strconv.ParseFloat(s, 64)],
    the decoded contents of [./penguin_data.json] (open, read and
    unmarshal, any of which may fail) and the length in bytes of the
    serialized session holding an artifact. *)
Class Platform (F : Type) : Type := {
  ParseFloat : string -> result F;
  penguin_data : result (list F);
  blobSize : matrixprofile.MatrixProfile F -> Z
}.

(** [strconv.Atoi]: an optional sign followed by one or more decimal
    digits, within the range of [int]. *)
Definition digit_of (c : ascii) : option Z :=
  let n := Z.of_N (N_of_ascii c) in
  if (48 <=? n) && (n <=? 57) then Some (n - 48) else None.

Fixpoint digits (s : string) (acc : Z) : option Z :=
  match s with
  | EmptyString => Some acc
  | String c rest =>
      match digit_of c with
      | None => None
      | Some d => digits rest (10 * acc + d)
      end
  end.

Definition ErrSyntax : error := "strconv.Atoi: invalid syntax".
Definition ErrRange : error := "strconv.Atoi: value out of range".

Definition Atoi_unsigned (sign : Z) (s : string) : result Z :=
  match s with
  | EmptyString => Err ErrSyntax
  | _ =>
      match digits s 0 with
      | None => Err ErrSyntax
      | Some n =>
          let v := sign * n in
          if (int_min <=? v) && (v <=? int_max) then Ok v else Err ErrRange
      end
  end.

Definition Atoi (s : string) : result Z :=
  match s with
  | String "+"%char rest => Atoi_unsigned 1 rest
  | String "-"%char rest => Atoi_unsigned (-1) rest
  | _ => Atoi_unsigned 1 s
  end.

(** ** Package-level configuration *)

Definition mpConcurrency : Z := 2.
Definition maxRedisBlobSize : Z := 1024 * 1024.
Definition retentionPeriod : Z := 5 * 60.

(** ** Responses *)

Record RespError : Type := {
  Error : error;
  CacheExpired : bool
}.

(** [RespError{Error: err}]: the omitted field is the zero value. *)
Definition RespError_of (err : error) : RespError :=
  {| Error := err; CacheExpired := false |}.

Record Data (F : Type) : Type := { Data_Data : list F }.
Record Segment (F : Type) : Type := { CAC : list F }.
Record Motif (F : Type) : Type := {
  Motif_Groups : list (matrixprofile.MotifGroup F);
  Motif_Series : list (list (list F))
}.
Record Discord (F : Type) : Type := {
  Discord_Groups : list Z;
  Discord_Series : list (list F)
}.
Record MP (F : Type) : Type := {
  MP_AV : list F;
  MP_AdjustedMP : list F
}.

(** The object handed to [c.JSON]. *)
Inductive Body (F : Type) : Type :=
| BError (e : RespError)
| BData (d : list F)
| BSegment (s : Segment F)
| BMotif (m : Motif F)
| BDiscord (d : Discord F)
| BMP (m : MP F).
Arguments BError {F} e.

(** What a handler does to its caller: it panics, or it writes one
    response with [c.JSON(code, obj)] and returns. *)
Inductive Outcome (F : Type) : Type :=
| Panicked
| JSON (code : Z) (obj : Body F).
Arguments Panicked {F}.

Definition is_failure {F} (o : Outcome F) (e : RespError) : Prop :=
  o = JSON 500 (BError e).

(** ** The session and its store *)

(** Modelled from the spec: the session store keeps at most one artifact
    per session; a write whose serialized size exceeds the configured
    maximum is rejected and leaves the slot as it was.  [redis] is the
    slot in the backing store, [values] the session's in-memory value
    under the key [mp]. *)
Record Session (F : Type) : Type := {
  redis : option (matrixprofile.MatrixProfile F);
  values : option (matrixprofile.MatrixProfile F)
}.

Section Sessions.
Context {F : Type} {P : Platform F}.

(** [sessions.Default(c)]: the session of the request, loaded from the
    store. *)
Definition sessions_Default
  (cache : option (matrixprofile.MatrixProfile F)) : Session F :=
  {| redis := cache; values := cache |}.

(** [session.Get("mp")]; [None] is Go's [nil]. *)
Definition session_Get (s : Session F)
  : option (matrixprofile.MatrixProfile F) :=
  values s.

(** [session.Set("mp", &mp)] *)
Definition session_Set (s : Session F) (mp : matrixprofile.MatrixProfile F)
  : Session F :=
  {| redis := redis s; values := Some mp |}.

Definition ErrTooBig : error :=
  "SessionStore: the value to store is too big".

(** [session.Save()], with the error it returns. *)
Definition session_Save (s : Session F) : Session F * option error :=
  match values s with
  | None => (s, None)
  | Some mp =>
      if blobSize mp >? maxRedisBlobSize
      then (s, Some ErrTooBig)
      else ({| redis := values s; values := values s |}, None)
  end.

End Sessions.

(** ** The handlers *)

Section Handlers.
Context {F : Type} {FF : Float64 F} {E : matrixprofile.Engine F}
  {P : Platform F}.

(** A handler maps the session's slot in the store and its request to
    the slot it leaves behind and its outcome. *)
Definition Handled : Type :=
  option (matrixprofile.MatrixProfile F) * Outcome F.

Definition fetchData : exec (Data F) :=
  match penguin_data with
  | Err err => Failed err
  | Ok data =>
      match smooth data 21 with
      | None => Panics
      | Some sdata =>
          match slice sdata 0 (24 * 60 * 7) with
          | None => Panics
          | Some d => Done {| Data_Data := d |}
          end
      end
  end.

Definition getData : Outcome F :=
  match fetchData with
  | Panics => Panicked
  | Failed err => JSON 500 (BError (RespError_of err))
  | Done data => JSON 200 (BData (Data_Data data))
  end.

(** [bindM] is the outcome of [c.BindJSON(&params)] for the body
    [{m: int}]. *)
Definition calculateMP (cache : option (matrixprofile.MatrixProfile F))
  (bindM : result Z) : Handled :=
  let session := sessions_Default cache in
  match bindM with
  | Err err => (redis session, JSON 500 (BError (RespError_of err)))
  | Ok m =>
      match fetchData with
      | Panics => (redis session, Panicked)
      | Failed err => (redis session, JSON 500 (BError (RespError_of err)))
      | Done data =>
          match matrixprofile.New (Data_Data data) m with
          | Err err =>
              (redis session, JSON 500 (BError (RespError_of err)))
          | Ok mp =>
              match matrixprofile.Stomp mp mpConcurrency with
              | Err err =>
                  (redis session, JSON 500 (BError (RespError_of err)))
              | Ok mp =>
                  (* compute the corrected arc curve based on the current
                     index matrix profile *)
                  let '(_, _, cac) := matrixprofile.Segment mp in
                  (* cache matrix profile for current session *)
                  let session := session_Set session mp in
                  let '(session, _) := session_Save session in
                  (redis session, JSON 200 (BSegment {| CAC := cac |}))
              end
          end
      end
  end.

(** [ZNormalize(mp.A[idx : idx+mp.M])] for each index in turn; the first
    panic or error ends the loop. *)
Fixpoint normalizeEach (mp : matrixprofile.MatrixProfile F) (idxs : list Z)
  : exec (list (list F)) :=
  match idxs with
  | [] => Done []
  | idx :: rest =>
      match
        slice (matrixprofile.A mp) idx (int_add idx (matrixprofile.M mp))
      with
      | None => Panics
      | Some w =>
          z <- of_result (matrixprofile.ZNormalize w) ;;
          zs <- normalizeEach mp rest ;;
          Done (z :: zs)
      end
  end.

(** [for i, g := range motif.Groups { ... }] *)
Fixpoint normalizeGroups (mp : matrixprofile.MatrixProfile F)
  (groups : list (matrixprofile.MotifGroup F))
  : exec (list (list (list F))) :=
  match groups with
  | [] => Done []
  | g :: rest =>
      s <- normalizeEach mp (matrixprofile.MG_Idx g) ;;
      ss <- normalizeGroups mp rest ;;
      Done (s :: ss)
  end.

(** The part of [topKMotifs] after the artifact was found. *)
Definition motifsOf (mp : matrixprofile.MatrixProfile F) (k : Z) (r : F)
  : Outcome F :=
  match matrixprofile.TopKMotifs mp k r with
  | Err err => JSON 500 (BError (RespError_of err))
  | Ok motifGroups =>
      match normalizeGroups mp motifGroups with
      | Panics => Panicked
      | Failed err => JSON 500 (BError (RespError_of err))
      | Done series =>
          JSON 200 (BMotif {| Motif_Groups := motifGroups;
                              Motif_Series := series |})
      end
  end.

Definition topKMotifs (cache : option (matrixprofile.MatrixProfile F))
  (qk qr : string) : Handled :=
  let session := sessions_Default cache in
  match Atoi qk with
  | Err err => (redis session, JSON 500 (BError (RespError_of err)))
  | Ok k =>
      match ParseFloat qr with
      | Err err => (redis session, JSON 500 (BError (RespError_of err)))
      | Ok r =>
          match session_Get session with
          | None =>
              (* either the cache expired or this was called directly *)
              (redis session,
               JSON 500 (BError
                 {| Error :=
                      "matrix profile is not initialized to compute motifs";
                    CacheExpired := true |}))
          | Some mp => (redis session, motifsOf mp k r)
          end
      end
  end.

Definition topKDiscords (cache : option (matrixprofile.MatrixProfile F))
  (kstr : string) : Handled :=
  let session := sessions_Default cache in
  match Atoi kstr with
  | Err err => (redis session, JSON 500 (BError (RespError_of err)))
  | Ok k =>
      match session_Get session with
      | None =>
          (redis session,
           JSON 500 (BError
             {| Error :=
                  "matrix profile is not initialized to compute discords";
                CacheExpired := true |}))
      | Some mp =>
          match
            matrixprofile.TopKDiscords mp k
              (int_div (matrixprofile.M mp) 2)
          with
          | Err _ =>
              (redis session,
               JSON 500 (BError (RespError_of "failed to compute discords")))
          | Ok discords =>
              match normalizeEach mp discords with
              | Panics => (redis session, Panicked)
              | Failed err =>
                  (redis session, JSON 500 (BError (RespError_of err)))
              | Done series =>
                  (redis session,
                   JSON 200 (BDiscord {| Discord_Groups := discords;
                                         Discord_Series := series |}))
              end
          end
      end
  end.

(** The [switch avname] of [getMP]; [None] is its [default] branch. *)
Definition avOfName (avname : string)
  : option matrixprofile.AnnotationVector :=
  if String.eqb avname "default" || String.eqb avname ""
  then Some matrixprofile.DefaultAV
  else if String.eqb avname "complexity"
  then Some matrixprofile.ComplexityAV
  else if String.eqb avname "meanstd"
  then Some matrixprofile.MeanStdAV
  else if String.eqb avname "clipping"
  then Some matrixprofile.ClippingAV
  else None.

(** [bindName] is the outcome of [c.BindJSON(&params)] for the body
    [{name: string}]. *)
Definition getMP (cache : option (matrixprofile.MatrixProfile F))
  (bindName : result string) : Handled :=
  let session := sessions_Default cache in
  match bindName with
  | Err _ =>
      (redis session,
       JSON 500 (BError (RespError_of
         "failed to unmarshall POST parameters with field `name`")))
  | Ok avname =>
      match session_Get session with
      | None =>
          (* matrix profile is not initialized so don't return any data
             back for the annotation vector *)
          (redis session,
           JSON 500 (BError
             {| Error := "matrix profile is not initialized";
                CacheExpired := true |}))
      | Some mp =>
          match avOfName avname with
          | None =>
              (redis session,
               JSON 500 (BError (RespError_of
                 ("invalid annotation vector name " ++ avname))))
          | Some av =>
              let mp := matrixprofile.set_AV mp av in
              (* cache matrix profile for current session *)
              let session := session_Set session mp in
              let '(session, _) := session_Save session in
              match matrixprofile.GetAV mp with
              | Err err =>
                  (redis session, JSON 500 (BError (RespError_of err)))
              | Ok av =>
                  match matrixprofile.ApplyAV mp av with
                  | Err err =>
                      (redis session,
                       JSON 500 (BError (RespError_of err)))
                  | Ok adjustedMP =>
                      (redis session,
                       JSON 200 (BMP {| MP_AV := av;
                                        MP_AdjustedMP := adjustedMP |}))
                  end
              end
          end
      end
  end.

End Handlers.

(** [mpserver/motifs.go] holds a second copy of [topKMotifs]; it reads the
    artifact through the helper [fetchMPCache] and is otherwise the same
    (the latency histogram is instrumentation). *)
Module motifs_go.
Section Motifs.
Context {F : Type} {E : matrixprofile.Engine F} {P : Platform F}.

(** Modelled from the spec: [fetchMPCache] is not among the sources; it
    yields the artifact of the session, or [nil] when there is none. *)
Variable fetchMPCache : Session F -> option (matrixprofile.MatrixProfile F).

Definition topKMotifs (cache : option (matrixprofile.MatrixProfile F))
  (qk qr : string) : option (matrixprofile.MatrixProfile F) * Outcome F :=
  let session := sessions_Default cache in
  match Atoi qk with
  | Err err => (redis session, JSON 500 (BError (RespError_of err)))
  | Ok k =>
      match ParseFloat qr with
      | Err err => (redis session, JSON 500 (BError (RespError_of err)))
      | Ok r =>
          match fetchMPCache session with
          | None =>
              (* either the cache expired or this was called directly *)
              (redis session,
               JSON 500 (BError
                 {| Error :=
                      "matrix profile is not initialized to compute motifs";
                    CacheExpired := true |}))
          | Some mp => (redis session, motifsOf mp k r)
          end
      end
  end.

End Motifs.
End motifs_go.

(** ** Vocabulary of the properties *)

(** The names [getMP] accepts, as its [switch] lists them. *)
Definition supportedNames : list string :=
  ["default"; ""; "complexity"; "meanstd"; "clipping"].

Section Vocabulary.
Context {F : Type} {E : matrixprofile.Engine F}.

(** The window of the artifact's series that starts at [idx]. *)
Definition subsequence (mp : matrixprofile.MatrixProfile F) (idx : Z)
  : list F :=
  firstn (Z.to_nat (matrixprofile.M mp))
    (skipn (Z.to_nat idx) (matrixprofile.A mp)).

(** [s] is what the response shows for index [idx]: the normalized window
    of length [M] found at [idx] in the series. *)
Definition presents (mp : matrixprofile.MatrixProfile F) (idx : Z)
  (s : list F) : Prop :=
  0 <= idx /\
  idx + matrixprofile.M mp <= len (matrixprofile.A mp) /\
  len (subsequence mp idx) = matrixprofile.M mp /\
  matrixprofile.ZNormalize (subsequence mp idx) = Ok s.

(** The window at [idx] lies inside the series. *)
Definition inSeries (mp : matrixprofile.MatrixProfile F) (idx : Z) : Prop :=
  0 <= idx /\ 0 <= matrixprofile.M mp /\
  idx + matrixprofile.M mp <= len (matrixprofile.A mp).

(** Normalization rejects the window at [idx]. *)
Definition degenerate (mp : matrixprofile.MatrixProfile F) (idx : Z)
  : Prop :=
  exists err, matrixprofile.ZNormalize (subsequence mp idx) = Err err.

(** The artifact is a value a Go program can hold. *)
Definition wellFormed (mp : matrixprofile.MatrixProfile F) : Prop :=
  is_int (matrixprofile.M mp) /\ len (matrixprofile.A mp) <= int_max.

(** All indices of all groups, in the order the handler visits them. *)
Definition memberIndices (groups : list (matrixprofile.MotifGroup F))
  : list Z :=
  flat_map (@matrixprofile.MG_Idx F) groups.

(** The answer of the motif query is all or nothing: a 200 response
    shows, group by group and index by index, the normalized window of
    every member; when every window lies in the series, one degenerate
    window turns the whole answer into the failure envelope, and none
    makes it succeed. *)
Definition motifAnswer (mp : matrixprofile.MatrixProfile F)
  (groups : list (matrixprofile.MotifGroup F)) (o : Outcome F) : Prop :=
  (forall m, o = JSON 200 (BMotif m) ->
     Motif_Groups m = groups /\
     Forall2 (fun g ss => Forall2 (presents mp) (matrixprofile.MG_Idx g) ss)
       groups (Motif_Series m)) /\
  (Forall (inSeries mp) (memberIndices groups) ->
     (Exists (degenerate mp) (memberIndices groups) ->
      exists err,
        o = JSON 500 (BError {| Error := err; CacheExpired := false |})) /\
     (~ Exists (degenerate mp) (memberIndices groups) ->
      exists series,
        o = JSON 200 (BMotif {| Motif_Groups := groups;
                                Motif_Series := series |}))).

(** The same for the discord query, whose indices are not grouped. *)
Definition discordAnswer (mp : matrixprofile.MatrixProfile F)
  (discords : list Z) (o : Outcome F) : Prop :=
  (forall d, o = JSON 200 (BDiscord d) ->
     Discord_Groups d = discords /\
     Forall2 (presents mp) discords (Discord_Series d)) /\
  (Forall (inSeries mp) discords ->
     (Exists (degenerate mp) discords ->
      exists err,
        o = JSON 500 (BError {| Error := err; CacheExpired := false |})) /\
     (~ Exists (degenerate mp) discords ->
      exists series,
        o = JSON 200 (BDiscord {| Discord_Groups := discords;
                                  Discord_Series := series |}))).

End Vocabulary.

(** Two indices lie within [zone] positions of each other. *)
Definition within (zone a b : Z) : Prop := Z.abs (a - b) < zone.

(** No two entries of the list lie within [zone] of each other. *)
Definition apart (zone : Z) (idxs : list Z) : Prop :=
  ForallOrdPairs (fun a b => ~ within zone a b) idxs.

(** The contract of the discord search: the indices it reports respect the
    exclusion zone it was given. *)
Definition respectsExclusionZone {F} (E : matrixprofile.Engine F) : Prop :=
  forall mp k zone discords,
    matrixprofile.TopKDiscords mp k zone = Ok discords ->
    apart zone discords.

(** The contract of the constructor: a window length that is not positive
    or not below the length of the series is refused. *)
Definition validatesWindow {F} (E : matrixprofile.Engine F) : Prop :=
  forall a m,
    ~ (0 < m < len a) -> exists err, matrixprofile.New a m = Err err.


(** The artifact a compute builds from a series and a window length. *)
Definition artifactOf {F} {E : matrixprofile.Engine F} (series : list F)
  (m : Z) : result (matrixprofile.MatrixProfile F) :=
  match matrixprofile.New series m with
  | Err err => Err err
  | Ok mp => matrixprofile.Stomp mp mpConcurrency
  end.

(** A compute whose artifact is too large for the store fails and leaves
    the session's slot as it was. *)
Definition oversizeReported {F} {FF : Float64 F}
  {E : matrixprofile.Engine F} {P : Platform F}
  (cache : option (matrixprofile.MatrixProfile F)) (m : Z) : Prop :=
  forall data mp,
    fetchData = Done data ->
    artifactOf (Data_Data data) m = Ok mp ->
    blobSize mp > maxRedisBlobSize ->
    (exists e, is_failure (snd (calculateMP cache (Ok m))) e) /\
    fst (calculateMP cache (Ok m)) = cache.

(** ** A small concrete environment

    Integers stand for [float64], and a toy engine for the numeric
    library, so that the handlers can be run. *)
Module Demo.

#[global] Instance float : Float64 Z := {|
  fzero := 0;
  fadd := Z.add;
  fdiv := Z.div;
  float64_of_int := fun z => z
|}.

Definition New (a : list Z) (m : Z)
  : result (matrixprofile.MatrixProfile Z) :=
  if 2 * m >=? len a
  then Err "subsequence length must be less than half the timeseries"
  else if m <? 2
  then Err "subsequence length must be at least 2"
  else Ok {| matrixprofile.A := a; matrixprofile.M := m;
             matrixprofile.MP := []; matrixprofile.Idx := [];
             matrixprofile.AV := matrixprofile.DefaultAV |}.

Definition Stomp (mp : matrixprofile.MatrixProfile Z) (parallelism : Z)
  : result (matrixprofile.MatrixProfile Z) :=
  let n := len (matrixprofile.A mp) - matrixprofile.M mp + 1 in
  Ok {| matrixprofile.A := matrixprofile.A mp;
        matrixprofile.M := matrixprofile.M mp;
        matrixprofile.MP := firstn (Z.to_nat n) (matrixprofile.A mp);
        matrixprofile.Idx := repeat 0 (Z.to_nat n);
        matrixprofile.AV := matrixprofile.AV mp |}.

Definition TopKMotifs (mp : matrixprofile.MatrixProfile Z) (k r : Z)
  : result (list (matrixprofile.MotifGroup Z)) :=
  if k <=? 0 then Err "k must be positive"
  else Ok [ {| matrixprofile.MG_Idx := [0; matrixprofile.M mp];
               matrixprofile.MG_MinDist := r |} ].

Definition TopKDiscords (mp : matrixprofile.MatrixProfile Z) (k zone : Z)
  : result (list Z) :=
  if k <=? 0 then Err "k must be positive"
  else Ok (firstn (Z.to_nat k) [0; zone; zone + zone]).

Definition ZNormalize (w : list Z) : result (list Z) :=
  match w with
  | [] => Err "slice does not have any data"
  | x :: _ =>
      if forallb (Z.eqb x) w
      then Err "standard deviation is zero"
      else Ok (map (fun y => y - x) w)
  end.

Definition GetAV (mp : matrixprofile.MatrixProfile Z) : result (list Z) :=
  match matrixprofile.AV mp with
  | matrixprofile.ClippingAV => Err "invalid annotation vector specified"
  | _ => Ok (map (fun _ => 1) (matrixprofile.MP mp))
  end.

Definition ApplyAV (mp : matrixprofile.MatrixProfile Z) (av : list Z)
  : result (list Z) :=
  if len av =? len (matrixprofile.MP mp)
  then Ok (matrixprofile.MP mp)
  else Err "annotation vector length does not match matrix profile length".

#[global] Instance engine : matrixprofile.Engine Z := {|
  matrixprofile.New := New;
  matrixprofile.Stomp := Stomp;
  matrixprofile.Segment := fun mp => (0, 0, matrixprofile.MP mp);
  matrixprofile.TopKMotifs := TopKMotifs;
  matrixprofile.TopKDiscords := TopKDiscords;
  matrixprofile.ZNormalize := ZNormalize;
  matrixprofile.GetAV := GetAV;
  matrixprofile.ApplyAV := ApplyAV
|}.

(** A platform whose data file decodes to [file] and whose serializer
    spends [bytesPerPoint] bytes on every point of the series and of the
    profile. *)
Definition platform (file : result (list Z)) (bytesPerPoint : Z)
  : Platform Z := {|
  ParseFloat := Atoi;
  penguin_data := file;
  blobSize := fun mp =>
    bytesPerPoint *
    (len (matrixprofile.A mp) + len (matrixprofile.MP mp))
|}.

(** A little more than a week of minutes: ten readings, over and over. *)
Definition minutes : list Z :=
  List.concat (repeat [3; 1; 4; 1; 5; 9; 2; 6; 5; 3] (Z.to_nat 1010)).

(** A short artifact with window length 2. *)
Definition short : matrixprofile.MatrixProfile Z :=
  {| matrixprofile.A := [3; 1; 4; 1; 5; 9; 2; 6];
     matrixprofile.M := 2;
     matrixprofile.MP := [2; 3; 3; 4; 4; 7; 4];
     matrixprofile.Idx := [2; 3; 0; 1; 0; 0; 0];
     matrixprofile.AV := matrixprofile.DefaultAV |}.

(** An artifact whose window at index 2 is constant. *)
Definition flat : matrixprofile.MatrixProfile Z :=
  {| matrixprofile.A := [3; 1; 4; 4; 5; 9; 2; 6];
     matrixprofile.M := 2;
     matrixprofile.MP := [2; 3; 3; 4; 4; 7; 4];
     matrixprofile.Idx := [2; 3; 0; 1; 0; 0; 0];
     matrixprofile.AV := matrixprofile.DefaultAV |}.

End Demo.

(** ** Instrumentation: response headers, the request counter, the routes *)

(** What a handler leaves on the wire besides its response: the response
    headers it set and the increments of the counter vector
    [requestTotal], newest first, each with its labels
    [(method, endpoint, code)]. *)
Record Wire : Type := {
  headers : list (string * string);
  requestTotal : list (string * string * string)
}.

(** [c.Header(key, value)]: the header is set, replacing an earlier value. *)
Definition Header (key value : string) (w : Wire) : Wire :=
  {| headers :=
       (key, value)
       :: filter (fun kv => negb (String.eqb (fst kv) key)) (headers w);
     requestTotal := requestTotal w |}.

(** The value of a response header, if it is set. *)
Definition header (key : string) (w : Wire) : option string :=
  match find (fun kv => String.eqb (fst kv) key) (headers w) with
  | Some kv => Some (snd kv)
  | None => None
  end.

(** [requestTotal.WithLabelValues(method, endpoint, code).Inc()] *)
Definition Inc (method endpoint code : string) (w : Wire) : Wire :=
  {| headers := headers w;
     requestTotal := (method, endpoint, code) :: requestTotal w |}.

Definition buildCORSHeaders (w : Wire) : Wire :=
  let w := Header "Access-Control-Allow-Origin" "http://localhost:8080" w in
  let w := Header "Access-Control-Allow-Credentials" "true" w in
  let w :=
    Header "Access-Control-Allow-Headers"
      "Origin, X-Requested-With, Content-Type, Accept" w in
  Header "Access-Control-Allow-Methods" "GET, POST" w.

(** The four headers [buildCORSHeaders] sets, with their values. *)
Definition corsHeaders : list (string * string) :=
  [("Access-Control-Allow-Origin", "http://localhost:8080");
   ("Access-Control-Allow-Credentials", "true");
   ("Access-Control-Allow-Headers",
    "Origin, X-Requested-With, Content-Type, Accept");
   ("Access-Control-Allow-Methods", "GET, POST")].

(** A request as the handlers read it: its method and path, [c.Query],
    and the outcome of [c.BindJSON] for each of the two bodies. *)
Record Request : Type := {
  Method : string;
  Path : string;
  Query : string -> string;
  BindM : result Z;
  BindName : result string
}.

(** The handlers once more, statement by statement, with the headers and
    the counter they touch. *)
Module instrumented.
Section Instrumented.
Context {F : Type} {FF : Float64 F} {E : matrixprofile.Engine F}
  {P : Platform F}.

Definition Handler : Type :=
  Request -> option (matrixprofile.MatrixProfile F) -> Wire ->
  Wire * (option (matrixprofile.MatrixProfile F) * Outcome F).

Definition getData : Handler := fun c cache w =>
  let endpoint := "/api/v1/data" in
  let method := "GET" in
  match fetchData with
  | Panics => (w, (cache, Panicked))
  | Failed err =>
      let w := Inc method endpoint "500" w in
      (w, (cache, JSON 500 (BError (RespError_of err))))
  | Done data =>
      let w := Header "Content-Type" "application/json" w in
      let w := buildCORSHeaders w in
      let w := Inc method endpoint "200" w in
      (w, (cache, JSON 200 (BData (Data_Data data))))
  end.

Definition calculateMP : Handler := fun c cache w =>
  let endpoint := "/api/v1/calculate" in
  let method := "POST" in
  let session := sessions_Default cache in
  let w := buildCORSHeaders w in
  match BindM c with
  | Err err =>
      (Inc method endpoint "500" w,
       (redis session, JSON 500 (BError (RespError_of err))))
  | Ok m =>
      match fetchData with
      | Panics => (w, (redis session, Panicked))
      | Failed err =>
          (Inc method endpoint "500" w,
           (redis session, JSON 500 (BError (RespError_of err))))
      | Done data =>
          match matrixprofile.New (Data_Data data) m with
          | Err err =>
              (Inc method endpoint "500" w,
               (redis session, JSON 500 (BError (RespError_of err))))
          | Ok mp =>
              match matrixprofile.Stomp mp mpConcurrency with
              | Err err =>
                  (Inc method endpoint "500" w,
                   (redis session, JSON 500 (BError (RespError_of err))))
              | Ok mp =>
                  let '(_, _, cac) := matrixprofile.Segment mp in
                  let session := session_Set session mp in
                  let '(session, _) := session_Save session in
                  (Inc method endpoint "200" w,
                   (redis session, JSON 200 (BSegment {| CAC := cac |})))
              end
          end
      end
  end.

Definition topKMotifs : Handler := fun c cache w =>
  let endpoint := "/api/v1/topkmotifs" in
  let method := "GET" in
  let session := sessions_Default cache in
  let w := buildCORSHeaders w in
  match Atoi (Query c "k") with
  | Err err =>
      (Inc method endpoint "500" w,
       (redis session, JSON 500 (BError (RespError_of err))))
  | Ok k =>
      match ParseFloat (Query c "r") with
      | Err err =>
          (Inc method endpoint "500" w,
           (redis session, JSON 500 (BError (RespError_of err))))
      | Ok r =>
          match session_Get session with
          | None =>
              (Inc method endpoint "500" w,
               (redis session,
                JSON 500 (BError
                  {| Error :=
                       "matrix profile is not initialized to compute motifs";
                     CacheExpired := true |})))
          | Some mp =>
              match matrixprofile.TopKMotifs mp k r with
              | Err err =>
                  (Inc method endpoint "500" w,
                   (redis session, JSON 500 (BError (RespError_of err))))
              | Ok motifGroups =>
                  match normalizeGroups mp motifGroups with
                  | Panics => (w, (redis session, Panicked))
                  | Failed err =>
                      (Inc method endpoint "500" w,
                       (redis session,
                        JSON 500 (BError (RespError_of err))))
                  | Done series =>
                      (Inc method endpoint "200" w,
                       (redis session,
                        JSON 200 (BMotif {| Motif_Groups := motifGroups;
                                            Motif_Series := series |})))
                  end
              end
          end
      end
  end.

Definition topKDiscords : Handler := fun c cache w =>
  let endpoint := "/api/v1/topkdiscords" in
  let method := "GET" in
  let session := sessions_Default cache in
  let w := buildCORSHeaders w in
  let kstr := Query c "k" in
  match Atoi kstr with
  | Err err =>
      (Inc method endpoint "500" w,
       (redis session, JSON 500 (BError (RespError_of err))))
  | Ok k =>
      match session_Get session with
      | None =>
          (Inc method endpoint "500" w,
           (redis session,
            JSON 500 (BError
              {| Error :=
                   "matrix profile is not initialized to compute discords";
                 CacheExpired := true |})))
      | Some mp =>
          match
            matrixprofile.TopKDiscords mp k (int_div (matrixprofile.M mp) 2)
          with
          | Err _ =>
              (Inc method endpoint "500" w,
               (redis session,
                JSON 500 (BError (RespError_of "failed to compute discords"))))
          | Ok discords =>
              match normalizeEach mp discords with
              | Panics => (w, (redis session, Panicked))
              | Failed err =>
                  (Inc method endpoint "500" w,
                   (redis session, JSON 500 (BError (RespError_of err))))
              | Done series =>
                  (Inc method endpoint "200" w,
                   (redis session,
                    JSON 200 (BDiscord {| Discord_Groups := discords;
                                          Discord_Series := series |})))
              end
          end
      end
  end.

Definition getMP : Handler := fun c cache w =>
  let endpoint := "/api/v1/mp" in
  let session := sessions_Default cache in
  let w := buildCORSHeaders w in
  match BindName c with
  | Err _ =>
      (Inc "POST" endpoint "500" w,
       (redis session,
        JSON 500 (BError (RespError_of
          "failed to unmarshall POST parameters with field `name`"))))
  | Ok avname =>
      match session_Get session with
      | None =>
          (Inc "POST" endpoint "500" w,
           (redis session,
            JSON 500 (BError
              {| Error := "matrix profile is not initialized";
                 CacheExpired := true |})))
      | Some mp =>
          match avOfName avname with
          | None =>
              (Inc "POST" endpoint "500" w,
               (redis session,
                JSON 500 (BError (RespError_of
                  ("invalid annotation vector name " ++ avname)))))
          | Some av =>
              let mp := matrixprofile.set_AV mp av in
              let session := session_Set session mp in
              let '(session, _) := session_Save session in
              match matrixprofile.GetAV mp with
              | Err err =>
                  (Inc "POST" endpoint "500" w,
                   (redis session, JSON 500 (BError (RespError_of err))))
              | Ok av =>
                  match matrixprofile.ApplyAV mp av with
                  | Err err =>
                      (Inc "POST" endpoint "500" w,
                       (redis session,
                        JSON 500 (BError (RespError_of err))))
                  | Ok adjustedMP =>
                      (Inc "POST" endpoint "200" w,
                       (redis session,
                        JSON 200 (BMP {| MP_AV := av;
                                         MP_AdjustedMP := adjustedMP |})))
                  end
              end
          end
      end
  end.

(** The routes [main] registers on the group [/api/v1]. *)
Definition v1 : list (string * string * Handler) :=
  [("GET", "/data", getData);
   ("POST", "/calculate", calculateMP);
   ("GET", "/topkmotifs", topKMotifs);
   ("GET", "/topkdiscords", topKDiscords);
   ("POST", "/mp", getMP)].

(** The handler registered for a method and a path, if there is one. *)
Definition route (method path : string) : option Handler :=
  match
    find (fun r =>
            String.eqb (fst (fst r)) method &&
            String.eqb ("/api/v1" ++ snd (fst r)) path) v1
  with
  | Some r => Some (snd r)
  | None => None
  end.

(** One request served by the router; [None] when no route matches. *)
Definition serve (c : Request)
  (cache : option (matrixprofile.MatrixProfile F)) (w : Wire)
  : option (Wire * (option (matrixprofile.MatrixProfile F) * Outcome F)) :=
  match route (Method c) (Path c) with
  | Some handler => Some (handler c cache w)
  | None => None
  end.

End Instrumented.
End instrumented.




(** The four CORS headers are set to the values of [buildCORSHeaders]. *)
Definition corsSet (w : Wire) : Prop :=
  Forall (fun kv => header (fst kv) w = Some (snd kv)) corsHeaders.

(** A request for the discords of a session, as a browser sends it. *)
Definition discordsRequest : Request :=
  {| Method := "GET";
     Path := "/api/v1/topkdiscords";
     Query := fun key => if String.eqb key "k" then "3" else "";
     BindM := Err "EOF";
     BindName := Err "EOF" |}.

(** Nothing on the wire yet. *)
Definition blank : Wire := {| headers := []; requestTotal := [] |}.

(** What [getData] does to the headers: it sets the CORS headers when it
    answers 200 and leaves the headers alone otherwise. *)
Definition corsOnSuccessOnly {F} (w : Wire)
  (served : Wire * (option (matrixprofile.MatrixProfile F) * Outcome F))
  : Prop :=
  match snd (snd served) with
  | Panicked => headers (fst served) = headers w
  | JSON code _ =>
      if code =? 200 then corsSet (fst served)
      else headers (fst served) = headers w
  end.


(** An artifact too short for the third index the toy search reports. *)
Definition tinyArtifact : matrixprofile.MatrixProfile Z :=
  {| matrixprofile.A := [3; 1; 4];
     matrixprofile.M := 2;
     matrixprofile.MP := [2; 3];
     matrixprofile.Idx := [1; 0];
     matrixprofile.AV := matrixprofile.DefaultAV |}.

(** ** Proof automation *)

(** Linear arithmetic over the bounds of [int]. *)
Ltac int_lia :=
  unfold is_int, int_min, int_max in *;
  change (2 ^ 62) with 4611686018427387904 in *;
  change (2 ^ 63) with 9223372036854775808 in *;
  change (2 ^ 64) with 18446744073709551616 in *;
  Z.div_mod_to_equations; lia.

(** Unfold a handler down to the collaborators' calls. *)
Ltac unfold_handlers :=
  unfold is_failure, topKMotifs, topKDiscords, getMP, calculateMP,
    motifs_go.topKMotifs, motifsOf, sessions_Default, session_Get,
    session_Set, session_Save, RespError_of;
  cbn [redis values fst snd].

(** Split on the scrutinee of the outermost remaining [match]. *)
Ltac case_step :=
  match goal with
  | |- context [match ?x with _ => _ end] =>
      lazymatch x with
      | context [match _ with _ => _ end] => fail
      | _ => destruct x eqn:?
      end
  end;
  cbn [redis values fst snd].

(** Split a handler with its instrumentation into its paths. *)
Ltac handler_paths :=
  unfold instrumented.getData, instrumented.calculateMP,
    instrumented.topKMotifs, instrumented.topKDiscords,
    instrumented.getMP, sessions_Default, session_Get, session_Set,
    session_Save;
  cbn [redis values fst snd];
  repeat case_step.

(** ** Smoothing: [smooth] never panics *)

Lemma wrap_small (z : Z) : is_int z -> wrap z = z.
Proof.
  unfold wrap. intros Hz.
  rewrite Z.mod_small; int_lia.
Qed.

Lemma half_bounds (m : Z) :
  0 <= m <= int_max -> int_div m 2 = Z.quot m 2 /\ 0 <= Z.quot m 2 < 2 ^ 62.
Proof.
  unfold int_div. intros Hm.
  assert (Hq : 0 <= Z.quot m 2 < 2 ^ 62).
  { rewrite Z.quot_div_nonneg by lia.
    split; [apply Z.div_pos; lia | apply Z.div_lt_upper_bound; int_lia]. }
  split; [apply wrap_small; int_lia | exact Hq].
Qed.

(** The window of position [i] is [i - m/2, i + m/2] clipped to the slice. *)
Lemma window_clipped (n m i : Z) :
  0 <= m <= int_max -> n < 2 ^ 62 -> 0 <= i < n ->
  window n m i = (Z.max 0 (i - Z.quot m 2), Z.min n (i + Z.quot m 2 + 1)).
Proof.
  intros Hm Hn Hi. destruct (half_bounds Hm) as [Hd Hq].
  unfold window, int_sub, int_add. rewrite Hd.
  rewrite (wrap_small (z := i - Z.quot m 2))
    by int_lia.
  rewrite (wrap_small (z := i + Z.quot m 2))
    by int_lia.
  rewrite (wrap_small (z := i + Z.quot m 2 + 1))
    by int_lia.
  f_equal.
  - destruct (Z.ltb_spec (i - Z.quot m 2) 0); lia.
  - destruct (Z.gtb_spec (i + Z.quot m 2 + 1) n); lia.
Qed.

Lemma slice_in_range {A} (a : list A) (lo hi : Z) :
  0 <= lo -> lo <= hi -> hi <= len a ->
  slice a lo hi = Some (firstn (Z.to_nat (hi - lo)) (skipn (Z.to_nat lo) a)).
Proof.
  intros H0 H1 H2. unfold slice.
  destruct (Z.leb_spec 0 lo); [|lia].
  destruct (Z.leb_spec lo hi); [|lia].
  destruct (Z.leb_spec hi (len a)); [|lia].
  reflexivity.
Qed.

Lemma slice_Some {A} (a : list A) (lo hi : Z) (w : list A) :
  slice a lo hi = Some w ->
  0 <= lo /\ lo <= hi /\ hi <= len a /\
  w = firstn (Z.to_nat (hi - lo)) (skipn (Z.to_nat lo) a) /\
  len w = hi - lo.
Proof.
  unfold slice. intros Hs.
  destruct (Z.leb_spec 0 lo); [|discriminate].
  destruct (Z.leb_spec lo hi); [|discriminate].
  destruct (Z.leb_spec hi (len a)); [|discriminate].
  simpl in Hs. injection Hs as <-.
  repeat split; try assumption.
  unfold len in *. rewrite length_firstn, length_skipn. lia.
Qed.

Section SmoothFacts.
Context {F : Type} {FF : Float64 F}.

Lemma smooth_at_defined (data : list F) (m i : Z) :
  0 <= m <= int_max -> len data < 2 ^ 62 -> 0 <= i < len data ->
  exists v, smooth_at data m i = Some v.
Proof.
  intros Hm Hn Hi. unfold smooth_at.
  rewrite (window_clipped Hm Hn Hi).
  destruct (half_bounds Hm) as [_ Hq].
  rewrite slice_in_range by lia. eauto.
Qed.

Lemma smooth_from_defined (data : list F) (m : Z) :
  0 <= m <= int_max -> len data < 2 ^ 62 ->
  forall (todo : list F) (i : Z),
    0 <= i -> i + len todo <= len data ->
    exists sdata,
      smooth_from data m i todo = Some sdata /\
      List.length sdata = List.length todo.
Proof.
  intros Hm Hn. induction todo as [|d todo IH]; intros i Hi Hlen.
  - exists []. split; reflexivity.
  - unfold len in Hlen. simpl List.length in Hlen.
    destruct (@smooth_at_defined data m i Hm Hn) as [v Hv];
      [unfold len; lia|].
    destruct (IH (i + 1)) as [vs [Hvs Hl]]; [lia | unfold len; lia |].
    exists (v :: vs). simpl. rewrite Hv, Hvs, Hl. split; reflexivity.
Qed.

End SmoothFacts.

(** C10.  For every slice (of a length a Go slice of [float64] can have)
    and every non-negative width [m], [smooth] does not panic and returns a
    slice of the length of its input; at every position the averaging
    window is [i - m/2, i + m/2] clipped to the slice, its slice expression
    is in range, and the divisor [e - s] is at least 1. *)
Theorem smooth_total_same_length
  (F : Type) (FF : Float64 F) (data : list F) (m : Z) :
  0 <= m <= int_max ->
  len data < 2 ^ 62 ->
  (exists sdata,
      smooth data m = Some sdata /\ List.length sdata = List.length data) /\
  (forall i, 0 <= i < len data ->
     let s := fst (window (len data) m i) in
     let e := snd (window (len data) m i) in
     s = Z.max 0 (i - Z.quot m 2) /\
     e = Z.min (len data) (i + Z.quot m 2 + 1) /\
     0 <= s /\ s <= i /\ i < e /\ e <= len data /\
     (exists w, slice data s e = Some w /\ len w = e - s) /\
     1 <= int_sub e s).
Proof.
  intros Hm Hn. split.
  - unfold smooth. apply smooth_from_defined; try assumption; lia.
  - intros i Hi. cbv zeta. rewrite (window_clipped Hm Hn Hi).
    cbn [fst snd].
    destruct (half_bounds Hm) as [_ Hq].
    repeat split; try lia.
    + rewrite slice_in_range by lia. eexists. split; [reflexivity|].
      unfold len. rewrite length_firstn, length_skipn. unfold len in *. lia.
    + unfold int_sub. rewrite wrap_small; int_lia.
Qed.

Lemma smooth_total_same_length_witness :
  exists sdata,
    smooth (F := Z) [3; 1; 4; 1; 5] 3 = Some sdata /\
    List.length sdata = List.length [3; 1; 4; 1; 5].
Proof.
  refine (proj1 (@smooth_total_same_length Z Demo.float
                   [3; 1; 4; 1; 5] 3 _ _)).
  - int_lia.
  - vm_compute. reflexivity.
Defined.

(** ** The [cache_expired] flag *)



(** ** The series source *)

(** With at least a week of minutes on file, [fetchData] yields a series of
    exactly [24 * 60 * 7] points. *)
Lemma fetchData_defined
  (F : Type) (FF : Float64 F) (P : Platform F) (raw : list F) :
  penguin_data = Ok raw ->
  24 * 60 * 7 <= len raw < 2 ^ 62 ->
  exists data,
    fetchData = Done data /\ len (Data_Data data) = 24 * 60 * 7.
Proof.
  intros Hfile Hlen. unfold fetchData. rewrite Hfile.
  destruct (@smooth_from_defined F FF raw 21) with (todo := raw) (i := 0)
    as [sdata [Hs Hl]]; try int_lia.
  unfold smooth. rewrite Hs.
  destruct (slice sdata 0 (24 * 60 * 7)) as [d|] eqn:Hd.
  - exists {| Data_Data := d |}. split; [reflexivity|].
    apply slice_Some in Hd. cbn [Data_Data]. lia.
  - rewrite slice_in_range in Hd; [discriminate | lia | lia |].
    unfold len in *. rewrite Hl. lia.
Qed.

(** ** Compute and the size bound of the store *)

Lemma session_Save_oversize
  (F : Type) (P : Platform F) (s : Session F)
  (mp : matrixprofile.MatrixProfile F) :
  blobSize mp > maxRedisBlobSize ->
  session_Save (session_Set s mp) = (session_Set s mp, Some ErrTooBig).
Proof.
  intros Hbig. unfold session_Save, session_Set. cbn [values].
  destruct (Z.gtb_spec (blobSize mp) maxRedisBlobSize); [reflexivity | lia].
Qed.


(** C2 (amended).  When the artifact of a successful compute is larger
    than the store accepts, the write is refused and the session keeps the
    artifact it had, but the compute call still answers 200 with the
    corrected arc curve: the result of [session.Save] is dropped. *)
Theorem oversize_artifact_not_cached
  (F : Type) (FF : Float64 F) (E : matrixprofile.Engine F) (P : Platform F)
  (cache : option (matrixprofile.MatrixProfile F)) (m : Z)
  (data : Data F) (mp : matrixprofile.MatrixProfile F) :
  fetchData = Done data ->
  artifactOf (Data_Data data) m = Ok mp ->
  blobSize mp > maxRedisBlobSize ->
  calculateMP cache (Ok m)
  = (cache, JSON 200 (BSegment {| CAC := snd (matrixprofile.Segment mp) |})).
Proof.
  intros Hdata Hmp Hbig. unfold calculateMP, artifactOf in *.
  rewrite Hdata.
  destruct (matrixprofile.New (Data_Data data) m) as [mp0|]; [|discriminate].
  rewrite Hmp.
  destruct (matrixprofile.Segment mp) as [[? ?] cac].
  rewrite session_Save_oversize by assumption. reflexivity.
Qed.

(** In the demo environment a compute with window length 50 on a week of
    minutes builds an artifact the store refuses. *)
Lemma demo_week_artifact (file : result (list Z)) (a : list Z) :
  len a = 24 * 60 * 7 ->
  exists mp,
    artifactOf a 50 = Ok mp /\
    blobSize (Platform := Demo.platform file 64) mp > maxRedisBlobSize.
Proof.
  intros Hlen. unfold artifactOf.
  cbn [matrixprofile.New matrixprofile.Stomp Demo.engine].
  unfold Demo.New. rewrite Hlen.
  change (2 * 50 >=? 24 * 60 * 7) with false.
  change (50 <? 2) with false. cbv iota.
  eexists. split; [reflexivity|].
  cbn [blobSize Demo.platform matrixprofile.A matrixprofile.MP
       matrixprofile.M].
  unfold maxRedisBlobSize, len in *. rewrite length_firstn. lia.
Qed.

Lemma length_concat_repeat {A} (l : list A) (n : nat) :
  List.length (List.concat (repeat l n)) = (n * List.length l)%nat.
Proof.
  induction n as [|n IH]; [reflexivity|].
  cbn [repeat List.concat]. rewrite length_app, IH. reflexivity.
Qed.

Lemma demo_minutes_length : len Demo.minutes = 10100.
Proof.
  unfold len, Demo.minutes. rewrite length_concat_repeat.
  cbn [List.length]. lia.
Qed.

Lemma oversize_artifact_not_cached_witness :
  exists cac,
    calculateMP (P := Demo.platform (Ok Demo.minutes) 64)
      (Some Demo.short) (Ok 50)
    = (Some Demo.short, JSON 200 (BSegment {| CAC := cac |})).
Proof.
  destruct (@fetchData_defined Z Demo.float
              (Demo.platform (Ok Demo.minutes) 64) Demo.minutes eq_refl)
    as [data [Hdata Hlen]].
  { rewrite demo_minutes_length. int_lia. }
  destruct (demo_week_artifact (Ok Demo.minutes) (Data_Data data) Hlen)
    as [mp [Hmp Hbig]].
  eexists.
  apply (@oversize_artifact_not_cached Z Demo.float Demo.engine
           (Demo.platform (Ok Demo.minutes) 64) (Some Demo.short) 50
           data mp Hdata Hmp Hbig).
Defined.

(** An oversized artifact: the compute answers 200 all the same. *)
Lemma oversize_counterexample :
  (exists cac,
     calculateMP (P := Demo.platform (Ok Demo.minutes) 64)
       (Some Demo.short) (Ok 50)
     = (Some Demo.short, JSON 200 (BSegment {| CAC := cac |}))) /\
  ~ oversizeReported (P := Demo.platform (Ok Demo.minutes) 64)
      (Some Demo.short) 50.
Proof.
  destruct (@fetchData_defined Z Demo.float
              (Demo.platform (Ok Demo.minutes) 64) Demo.minutes eq_refl)
    as [data [Hdata Hlen]].
  { rewrite demo_minutes_length. int_lia. }
  destruct (demo_week_artifact (Ok Demo.minutes) (Data_Data data) Hlen)
    as [mp [Hmp Hbig]].
  assert (Hrun := @session_Save_oversize Z
            (Demo.platform (Ok Demo.minutes) 64)
            (sessions_Default (Some Demo.short)) mp Hbig).
  assert (Hout :
    calculateMP (P := Demo.platform (Ok Demo.minutes) 64)
      (Some Demo.short) (Ok 50)
    = (Some Demo.short,
       JSON 200 (BSegment {| CAC := snd (matrixprofile.Segment mp) |}))).
  { unfold calculateMP, artifactOf in *. rewrite Hdata.
    destruct (matrixprofile.New (Data_Data data) 50); [|discriminate].
    rewrite Hmp. destruct (matrixprofile.Segment mp) as [[? ?] cac].
    rewrite Hrun. reflexivity. }
  split; [eexists; exact Hout|].
  intros Hclaim.
  destruct (Hclaim data mp Hdata Hmp Hbig) as [[e He] _].
  unfold is_failure in He. rewrite Hout in He. discriminate He.
Qed.

(** ** Compute and the window length *)

Lemma demo_validatesWindow : validatesWindow Demo.engine.
Proof.
  intros a m Hbad. cbn [matrixprofile.New Demo.engine]. unfold Demo.New.
  destruct (Z.geb_spec (2 * m) (len a)); [eauto|].
  destruct (Z.ltb_spec m 2); [eauto|].
  exfalso. apply Hbad. lia.
Qed.

(** C3.  With an engine whose constructor validates the window length, a
    compute request whose [m] is not a positive integer below the length of
    the series fails: the answer is the failure envelope with the
    constructor's error, the session is not written, and neither [Stomp]
    nor [Segment] is consulted.  A body whose [m] does not bind to an
    integer fails in the same way before the series is fetched. *)
Theorem window_length_validated
  (F : Type) (FF : Float64 F) (E : matrixprofile.Engine F) (P : Platform F)
  (cache : option (matrixprofile.MatrixProfile F)) (m : Z) (data : Data F) :
  validatesWindow E ->
  fetchData = Done data ->
  ~ (0 < m < len (Data_Data data)) ->
  (exists err,
      matrixprofile.New (Data_Data data) m = Err err /\
      calculateMP cache (Ok m)
      = (cache,
         JSON 500 (BError {| Error := err; CacheExpired := false |}))) /\
  (forall E' : matrixprofile.Engine F,
      @matrixprofile.New F E' = @matrixprofile.New F E ->
      calculateMP (E := E') cache (Ok m) = calculateMP (E := E) cache (Ok m))
  /\
  (forall err,
      calculateMP cache (Err err)
      = (cache,
         JSON 500 (BError {| Error := err; CacheExpired := false |}))).
Proof.
  intros Hval Hdata Hbad.
  destruct (Hval (Data_Data data) m Hbad) as [err Herr].
  split; [|split].
  - exists err. split; [exact Herr|].
    unfold calculateMP. rewrite Hdata, Herr. reflexivity.
  - intros E' HNew. unfold calculateMP. rewrite Hdata, HNew, Herr.
    reflexivity.
  - reflexivity.
Qed.

Lemma window_length_validated_witness :
  exists err,
    calculateMP (P := Demo.platform (Ok Demo.minutes) 64)
      (Some Demo.short) (Ok 20000)
    = (Some Demo.short,
       JSON 500 (BError {| Error := err; CacheExpired := false |})).
Proof.
  destruct (@fetchData_defined Z Demo.float
              (Demo.platform (Ok Demo.minutes) 64) Demo.minutes eq_refl)
    as [data [Hdata Hlen]].
  { rewrite demo_minutes_length. int_lia. }
  destruct (@window_length_validated Z Demo.float Demo.engine
              (Demo.platform (Ok Demo.minutes) 64) (Some Demo.short)
              20000 data demo_validatesWindow Hdata)
    as [[err [_ Hout]] _].
  { rewrite Hlen. lia. }
  exists err. exact Hout.
Defined.

(** ** The annotation vector *)

Lemma avOfName_supported (avname : string) :
  In avname supportedNames <-> exists av, avOfName avname = Some av.
Proof.
  unfold avOfName, supportedNames. cbn [In].
  destruct (String.eqb_spec avname "default");
    [cbn [orb]; split; [eauto | intros _; auto 7] |].
  destruct (String.eqb_spec avname "");
    [cbn [orb]; split; [eauto | intros _; auto 7] |].
  cbn [orb].
  destruct (String.eqb_spec avname "complexity");
    [split; [eauto | intros _; auto 7] |].
  destruct (String.eqb_spec avname "meanstd");
    [split; [eauto | intros _; auto 7] |].
  destruct (String.eqb_spec avname "clipping");
    [split; [eauto | intros _; auto 7] |].
  split.
  - intros [?|[?|[?|[?|[?|[]]]]]]; congruence.
  - intros [av Hav]. discriminate Hav.
Qed.

Lemma avOfName_unsupported (avname : string) :
  ~ In avname supportedNames -> avOfName avname = None.
Proof.
  intros Hnot. destruct (avOfName avname) eqn:Hav; [|reflexivity].
  exfalso. apply Hnot. apply avOfName_supported. eauto.
Qed.

(** C4.  [getMP] resolves the name against the enumerated kinds; a name
    outside them is answered with the failure envelope naming it (flag
    false) and the session is not written, so the cached artifact keeps its
    annotation vector. *)
Theorem unknown_name_rejected
  (F : Type) (FF : Float64 F) (E : matrixprofile.Engine F) (P : Platform F)
  (mp : matrixprofile.MatrixProfile F) (avname : string) :
  ~ In avname supportedNames ->
  getMP (Some mp) (Ok avname)
  = (Some mp,
     JSON 500 (BError
       {| Error := "invalid annotation vector name " ++ avname;
          CacheExpired := false |})) /\
  (forall cache,
      fst (getMP cache (Ok avname)) = cache /\
      exists e, is_failure (snd (getMP cache (Ok avname))) e).
Proof.
  intros Hnot. apply avOfName_unsupported in Hnot.
  split.
  - unfold getMP. cbn. rewrite Hnot. reflexivity.
  - intros [mp'|]; unfold getMP, is_failure; cbn; [rewrite Hnot|];
      cbn; eauto.
Qed.

Lemma unknown_name_rejected_witness :
  getMP (P := Demo.platform (Ok Demo.minutes) 8)
    (Some Demo.short) (Ok "unknown")
  = (Some Demo.short,
     JSON 500 (BError
       {| Error := "invalid annotation vector name unknown";
          CacheExpired := false |})).
Proof.
  refine (proj1 (@unknown_name_rejected Z Demo.float Demo.engine
                   (Demo.platform (Ok Demo.minutes) 8) Demo.short
                   "unknown" _)).
  cbn. intros [H|[H|[H|[H|[H|[]]]]]]; discriminate H.
Defined.

Lemma set_AV_twice
  (F : Type) (mp : matrixprofile.MatrixProfile F)
  (av av' : matrixprofile.AnnotationVector) :
  matrixprofile.set_AV (matrixprofile.set_AV mp av) av'
  = matrixprofile.set_AV mp av'.
Proof. reflexivity. Qed.

(** What [getMP] does once the artifact is found and the name resolved:
    the slot it leaves depends on the size check alone, the answer on the
    engine alone. *)
Lemma getMP_resolved
  (F : Type) (FF : Float64 F) (E : matrixprofile.Engine F) (P : Platform F)
  (mp : matrixprofile.MatrixProfile F) (avname : string)
  (av : matrixprofile.AnnotationVector) :
  avOfName avname = Some av ->
  getMP (Some mp) (Ok avname)
  = (if blobSize (matrixprofile.set_AV mp av) >? maxRedisBlobSize
     then Some mp else Some (matrixprofile.set_AV mp av),
     match matrixprofile.GetAV (matrixprofile.set_AV mp av) with
     | Err err => JSON 500 (BError (RespError_of err))
     | Ok v =>
         match matrixprofile.ApplyAV (matrixprofile.set_AV mp av) v with
         | Err err => JSON 500 (BError (RespError_of err))
         | Ok adjustedMP =>
             JSON 200 (BMP {| MP_AV := v; MP_AdjustedMP := adjustedMP |})
         end
     end).
Proof.
  intros Hav. unfold getMP, sessions_Default, session_Get, session_Set,
    session_Save. cbn [values redis]. rewrite Hav.
  destruct (blobSize (matrixprofile.set_AV mp av) >? maxRedisBlobSize);
    cbn [redis];
    destruct (matrixprofile.GetAV (matrixprofile.set_AV mp av)) as [v|];
    try reflexivity;
    destruct (matrixprofile.ApplyAV (matrixprofile.set_AV mp av) v);
    reflexivity.
Qed.

(** C7.  With an artifact cached and a supported name, calling [getMP]
    twice in succession with that name gives the same answer (hence the
    same [adjusted_mp]) both times, and the second call leaves the session
    as the first did. *)
Theorem setAnnotationVector_idempotent
  (F : Type) (FF : Float64 F) (E : matrixprofile.Engine F) (P : Platform F)
  (mp : matrixprofile.MatrixProfile F) (avname : string) :
  In avname supportedNames ->
  snd (getMP (fst (getMP (Some mp) (Ok avname))) (Ok avname))
  = snd (getMP (Some mp) (Ok avname)) /\
  fst (getMP (fst (getMP (Some mp) (Ok avname))) (Ok avname))
  = fst (getMP (Some mp) (Ok avname)).
Proof.
  intros Hin. apply avOfName_supported in Hin. destruct Hin as [av Hav].
  rewrite (@getMP_resolved F FF E P mp avname av Hav). cbn [fst snd].
  destruct (blobSize (matrixprofile.set_AV mp av) >? maxRedisBlobSize)
    eqn:Hsize.
  - rewrite (@getMP_resolved F FF E P mp avname av Hav), Hsize.
    split; reflexivity.
  - rewrite (@getMP_resolved F FF E P (matrixprofile.set_AV mp av)
               avname av Hav).
    rewrite set_AV_twice, Hsize. split; reflexivity.
Qed.

Lemma setAnnotationVector_idempotent_witness :
  snd (getMP (P := Demo.platform (Ok Demo.minutes) 8)
         (fst (getMP (P := Demo.platform (Ok Demo.minutes) 8)
                 (Some Demo.short) (Ok "complexity")))
         (Ok "complexity"))
  = snd (getMP (P := Demo.platform (Ok Demo.minutes) 8)
           (Some Demo.short) (Ok "complexity")).
Proof.
  refine (proj1 (@setAnnotationVector_idempotent Z Demo.float Demo.engine
                   (Demo.platform (Ok Demo.minutes) 8) Demo.short
                   "complexity" _)).
  cbn. auto.
Defined.

(** C8.  For a recognized name the artifact with the new annotation vector
    is saved before [GetAV] and [ApplyAV] run: when either of them fails
    (and the artifact fits the store), [getMP] answers with the failure
    envelope while the session already holds the mutated artifact. *)
Theorem artifact_saved_before_adjustment
  (F : Type) (FF : Float64 F) (E : matrixprofile.Engine F) (P : Platform F)
  (mp : matrixprofile.MatrixProfile F) (avname : string)
  (av : matrixprofile.AnnotationVector) (err : error) :
  avOfName avname = Some av ->
  blobSize (matrixprofile.set_AV mp av) <= maxRedisBlobSize ->
  (matrixprofile.GetAV (matrixprofile.set_AV mp av) = Err err \/
   exists v,
     matrixprofile.GetAV (matrixprofile.set_AV mp av) = Ok v /\
     matrixprofile.ApplyAV (matrixprofile.set_AV mp av) v = Err err) ->
  getMP (Some mp) (Ok avname)
  = (Some (matrixprofile.set_AV mp av),
     JSON 500 (BError {| Error := err; CacheExpired := false |})).
Proof.
  intros Hav Hfits Hfail.
  rewrite (@getMP_resolved F FF E P mp avname av Hav).
  destruct (Z.gtb_spec (blobSize (matrixprofile.set_AV mp av))
              maxRedisBlobSize); [lia|].
  destruct Hfail as [Hget | [v [Hget Happly]]].
  - rewrite Hget. reflexivity.
  - rewrite Hget, Happly. reflexivity.
Qed.

Lemma artifact_saved_before_adjustment_witness :
  getMP (P := Demo.platform (Ok Demo.minutes) 8)
    (Some Demo.short) (Ok "clipping")
  = (Some (matrixprofile.set_AV Demo.short matrixprofile.ClippingAV),
     JSON 500 (BError
       {| Error := "invalid annotation vector specified";
          CacheExpired := false |})).
Proof.
  apply (@artifact_saved_before_adjustment Z Demo.float Demo.engine
           (Demo.platform (Ok Demo.minutes) 8) Demo.short "clipping"
           matrixprofile.ClippingAV "invalid annotation vector specified").
  - reflexivity.
  - cbn. unfold maxRedisBlobSize. lia.
  - left. reflexivity.
Defined.


(** ** The series shown with motifs and discords *)

Section Windows.
Context {F : Type} {E : matrixprofile.Engine F}.
Variable mp : matrixprofile.MatrixProfile F.
Hypothesis Hwf : wellFormed mp.

(** A slice expression that does not panic cut out the window. *)
Lemma window_sliced (idx : Z) (w : list F) :
  slice (matrixprofile.A mp) idx (int_add idx (matrixprofile.M mp)) = Some w ->
  inSeries mp idx /\ w = subsequence mp idx /\ len w = matrixprofile.M mp.
Proof.
  intros Hs. apply slice_Some in Hs.
  destruct Hs as (H0 & H1 & H2 & Hw & Hl). destruct Hwf as [HM HA].
  assert (Hadd : int_add idx (matrixprofile.M mp)
                 = idx + matrixprofile.M mp).
  { unfold int_add, wrap in *. int_lia. }
  rewrite Hadd in *.
  replace (idx + matrixprofile.M mp - idx) with (matrixprofile.M mp) in *
    by lia.
  unfold inSeries, subsequence. repeat split; try assumption; lia.
Qed.

Lemma window_found (idx : Z) :
  inSeries mp idx ->
  slice (matrixprofile.A mp) idx (int_add idx (matrixprofile.M mp))
  = Some (subsequence mp idx).
Proof.
  intros (H0 & HM0 & Hhi). destruct Hwf as [HM HA].
  assert (Hadd : int_add idx (matrixprofile.M mp)
                 = idx + matrixprofile.M mp).
  { unfold int_add. apply wrap_small. int_lia. }
  rewrite Hadd, slice_in_range by lia.
  unfold subsequence. do 3 f_equal. lia.
Qed.

Lemma normalizeEach_Done (idxs : list Z) :
  forall zs, normalizeEach mp idxs = Done zs ->
             Forall2 (presents mp) idxs zs.
Proof.
  induction idxs as [|idx rest IH]; intros zs Hrun; cbn in Hrun.
  - injection Hrun as <-. constructor.
  - destruct (slice _ idx _) as [w|] eqn:Hs; [|discriminate].
    apply window_sliced in Hs. destruct Hs as (Hin & -> & Hlen).
    destruct (matrixprofile.ZNormalize (subsequence mp idx)) as [z|] eqn:Hz;
      cbn in Hrun; [|discriminate].
    destruct (normalizeEach mp rest) as [zs'| |]; cbn in Hrun;
      try discriminate.
    injection Hrun as <-. constructor; [|apply IH; reflexivity].
    unfold presents. destruct Hin as (? & ? & ?). auto.
Qed.

Lemma normalizeEach_Failed (idxs : list Z) (err : error) :
  normalizeEach mp idxs = Failed err -> Exists (degenerate mp) idxs.
Proof.
  induction idxs as [|idx rest IH]; intros Hrun; cbn in Hrun.
  - discriminate.
  - destruct (slice _ idx _) as [w|] eqn:Hs; [|discriminate].
    apply window_sliced in Hs. destruct Hs as (Hin & -> & Hlen).
    destruct (matrixprofile.ZNormalize (subsequence mp idx)) as [z|] eqn:Hz;
      cbn in Hrun.
    + destruct (normalizeEach mp rest) as [zs'| |]; cbn in Hrun;
        try discriminate.
      apply Exists_cons_tl. apply IH. assumption.
    + apply Exists_cons_hd. exists e. assumption.
Qed.

Lemma normalizeEach_no_panic (idxs : list Z) :
  Forall (inSeries mp) idxs -> normalizeEach mp idxs <> Panics.
Proof.
  induction 1 as [|idx rest Hin Hrest IH]; cbn.
  - discriminate.
  - rewrite (window_found Hin).
    destruct (matrixprofile.ZNormalize (subsequence mp idx)); cbn;
      [|discriminate].
    destruct (normalizeEach mp rest); cbn; congruence.
Qed.

Lemma presents_not_degenerate (idxs : list Z) (zs : list (list F)) :
  Forall2 (presents mp) idxs zs -> ~ Exists (degenerate mp) idxs.
Proof.
  induction 1 as [|idx z rest zs' Hp Hrest IH]; intros Hex.
  - inversion Hex.
  - inversion Hex as [? ? [err Herr]|]; subst; [|auto].
    destruct Hp as (_ & _ & _ & Hok). congruence.
Qed.

Lemma normalizeGroups_Done (groups : list (matrixprofile.MotifGroup F)) :
  forall series,
    normalizeGroups mp groups = Done series ->
    Forall2 (fun g ss => Forall2 (presents mp) (matrixprofile.MG_Idx g) ss)
      groups series.
Proof.
  induction groups as [|g rest IH]; intros series Hrun; cbn in Hrun.
  - injection Hrun as <-. constructor.
  - destruct (normalizeEach mp (matrixprofile.MG_Idx g)) as [s| |] eqn:Hg;
      cbn in Hrun; try discriminate.
    destruct (normalizeGroups mp rest) as [ss| |]; cbn in Hrun;
      try discriminate.
    injection Hrun as <-.
    constructor; [apply normalizeEach_Done; assumption | apply IH; reflexivity].
Qed.

Lemma normalizeGroups_Failed (groups : list (matrixprofile.MotifGroup F))
  (err : error) :
  normalizeGroups mp groups = Failed err ->
  Exists (degenerate mp) (memberIndices groups).
Proof.
  induction groups as [|g rest IH]; intros Hrun; cbn in Hrun.
  - discriminate.
  - unfold memberIndices. cbn [flat_map]. apply Exists_app.
    destruct (normalizeEach mp (matrixprofile.MG_Idx g)) as [s| |] eqn:Hg;
      cbn in Hrun; try discriminate.
    + destruct (normalizeGroups mp rest) as [ss| |]; cbn in Hrun;
        try discriminate.
      right. apply IH. assumption.
    + left. eapply normalizeEach_Failed. eassumption.
Qed.

Lemma normalizeGroups_no_panic (groups : list (matrixprofile.MotifGroup F)) :
  Forall (inSeries mp) (memberIndices groups) ->
  normalizeGroups mp groups <> Panics.
Proof.
  induction groups as [|g rest IH]; cbn; [discriminate|].
  unfold memberIndices. cbn [flat_map]. intros Hall.
  apply Forall_app in Hall. destruct Hall as [Hg Hrest].
  pose proof (normalizeEach_no_panic Hg) as Hnp.
  destruct (normalizeEach mp (matrixprofile.MG_Idx g)); cbn;
    [|discriminate|congruence].
  specialize (IH Hrest).
  destruct (normalizeGroups mp rest); cbn; congruence.
Qed.

Lemma groups_not_degenerate (groups : list (matrixprofile.MotifGroup F))
  (series : list (list (list F))) :
  Forall2 (fun g ss => Forall2 (presents mp) (matrixprofile.MG_Idx g) ss)
    groups series ->
  ~ Exists (degenerate mp) (memberIndices groups).
Proof.
  induction 1 as [|g ss rest series' Hg Hrest IH]; intros Hex.
  - inversion Hex.
  - unfold memberIndices in Hex. cbn [flat_map] in Hex.
    apply Exists_app in Hex. destruct Hex as [Hex|Hex].
    + exact (presents_not_degenerate Hg Hex).
    + exact (IH Hex).
Qed.

End Windows.

Lemma motifsOf_answer
  (F : Type) (FF : Float64 F) (E : matrixprofile.Engine F) (P : Platform F)
  (mp : matrixprofile.MatrixProfile F) (k : Z) (r : F)
  (groups : list (matrixprofile.MotifGroup F)) :
  wellFormed mp ->
  matrixprofile.TopKMotifs mp k r = Ok groups ->
  motifAnswer mp groups (motifsOf mp k r).
Proof.
  intros Hwf Hgroups. unfold motifAnswer, motifsOf. rewrite Hgroups.
  destruct (normalizeGroups mp groups) as [series|err|] eqn:Hrun.
  - pose proof (normalizeGroups_Done Hwf groups Hrun) as Hshown.
    split.
    + intros m Hm. injection Hm as <-. cbn. auto.
    + intros _. split; [|intros _; eexists; reflexivity].
      intros Hdeg. exfalso. exact (groups_not_degenerate Hshown Hdeg).
  - split; [discriminate|].
    intros _. split; [intros _; eexists; reflexivity|].
    intros Hnone. exfalso. apply Hnone.
    exact (normalizeGroups_Failed Hwf groups Hrun).
  - split; [discriminate|].
    intros Hall. exfalso.
    exact (normalizeGroups_no_panic Hwf groups Hall Hrun).
Qed.

Lemma discords_answer
  (F : Type) (FF : Float64 F) (E : matrixprofile.Engine F) (P : Platform F)
  (mp : matrixprofile.MatrixProfile F) (kstr : string) (k : Z)
  (discords : list Z) :
  wellFormed mp ->
  Atoi kstr = Ok k ->
  matrixprofile.TopKDiscords mp k (int_div (matrixprofile.M mp) 2)
  = Ok discords ->
  discordAnswer mp discords (snd (topKDiscords (Some mp) kstr)).
Proof.
  intros Hwf Hk Hfound. unfold discordAnswer, topKDiscords.
  cbn [sessions_Default session_Get values redis]. rewrite Hk, Hfound.
  destruct (normalizeEach mp discords) as [series|err|] eqn:Hrun;
    cbn [snd].
  - pose proof (normalizeEach_Done Hwf discords Hrun) as Hshown.
    split.
    + intros d Hd. injection Hd as <-. cbn. auto.
    + intros _. split; [|intros _; eexists; reflexivity].
      intros Hdeg. exfalso. exact (presents_not_degenerate Hshown Hdeg).
  - split; [discriminate|].
    intros _. split; [intros _; eexists; reflexivity|].
    intros Hnone. exfalso. apply Hnone.
    exact (normalizeEach_Failed Hwf discords Hrun).
  - split; [discriminate|].
    intros Hall. exfalso.
    exact (normalizeEach_no_panic Hwf Hall Hrun).
Qed.

(** C5.  Once the motif or discord search has succeeded, every entry of
    the response's [series] is the normalized window of length [M] cut
    from the artifact's series at the reported index; a window that fails
    to normalize makes the whole answer the failure envelope, so no
    partial result is returned.  This holds for both copies of
    [topKMotifs] and for [topKDiscords]. *)
Theorem series_all_or_nothing
  (F : Type) (FF : Float64 F) (E : matrixprofile.Engine F) (P : Platform F)
  (mp : matrixprofile.MatrixProfile F) (qk qr kstr : string)
  (k k' : Z) (r : F) :
  wellFormed mp ->
  Atoi qk = Ok k ->
  ParseFloat qr = Ok r ->
  Atoi kstr = Ok k' ->
  (forall groups,
      matrixprofile.TopKMotifs mp k r = Ok groups ->
      motifAnswer mp groups (snd (topKMotifs (Some mp) qk qr)) /\
      (forall fetchMPCache,
          fetchMPCache (sessions_Default (Some mp)) = Some mp ->
          motifAnswer mp groups
            (snd (motifs_go.topKMotifs fetchMPCache (Some mp) qk qr)))) /\
  (forall discords,
      matrixprofile.TopKDiscords mp k' (int_div (matrixprofile.M mp) 2)
      = Ok discords ->
      discordAnswer mp discords (snd (topKDiscords (Some mp) kstr))).
Proof.
  intros Hwf Hk Hr Hk'. split.
  - intros groups Hgroups. split.
    + unfold topKMotifs. cbn [sessions_Default session_Get values redis].
      rewrite Hk, Hr. cbn [snd]. apply motifsOf_answer; assumption.
    + intros fetchMPCache Hfetch. unfold motifs_go.topKMotifs.
      rewrite Hk, Hr, Hfetch. cbn [snd]. apply motifsOf_answer; assumption.
  - intros discords Hfound. eapply discords_answer; eassumption.
Qed.

Lemma demo_flat_wellFormed : wellFormed Demo.flat.
Proof. unfold wellFormed, is_int, int_min, int_max. cbn. lia. Qed.

Lemma demo_short_wellFormed : wellFormed Demo.short.
Proof. unfold wellFormed, is_int, int_min, int_max. cbn. lia. Qed.

Lemma series_all_or_nothing_witness :
  exists err,
    snd (topKMotifs (P := Demo.platform (Ok Demo.minutes) 8)
           (Some Demo.flat) "1" "2")
    = JSON 500 (BError {| Error := err; CacheExpired := false |}).
Proof.
  destruct (@series_all_or_nothing Z Demo.float Demo.engine
              (Demo.platform (Ok Demo.minutes) 8) Demo.flat
              "1" "2" "1" 1 1 2
              demo_flat_wellFormed eq_refl eq_refl eq_refl)
    as [Hmotifs _].
  destruct (Hmotifs
              [ {| matrixprofile.MG_Idx := [0; 2];
                   matrixprofile.MG_MinDist := 2 |} ] eq_refl)
    as [[_ Hrun] _].
  apply Hrun.
  - repeat constructor; cbn; lia.
  - apply Exists_cons_tl. apply Exists_cons_hd.
    exists "standard deviation is zero". reflexivity.
Defined.

(** ** The exclusion zone of the discord query *)

Lemma demo_respectsExclusionZone : respectsExclusionZone Demo.engine.
Proof.
  intros mp k zone discords Hfound.
  cbn [matrixprofile.TopKDiscords Demo.engine] in Hfound.
  unfold Demo.TopKDiscords in Hfound.
  destruct (k <=? 0); [discriminate|]. injection Hfound as <-.
  unfold apart.
  destruct (Z.to_nat k) as [|[|[|n]]]; cbn [firstn]; rewrite ?firstn_nil;
    repeat constructor; unfold within; lia.
Qed.

Lemma half_window (m : Z) : is_int m -> int_div m 2 = Z.quot m 2.
Proof.
  intros Hm. unfold int_div. apply wrap_small.
  unfold is_int, int_min, int_max in *.
  change (2 ^ 63) with 9223372036854775808 in *.
  Z.quot_rem_to_equations. lia.
Qed.

(** The scenario of the specification: window length 50, zone 25. *)
Example half_of_fifty : int_div 50 2 = 25.
Proof. reflexivity. Qed.

(** C6.  [topKDiscords] runs the discord search with the exclusion zone
    [M / 2] and with no other: its outcome is the same for any engine
    whose search agrees at that zone, the indices of a 200 response are
    those the search reported for zone [M / 2], and, the search respecting
    its exclusion zone, no two of them lie within [M / 2] of each other. *)
Theorem discords_half_window_exclusion
  (F : Type) (FF : Float64 F) (E : matrixprofile.Engine F) (P : Platform F)
  (mp : matrixprofile.MatrixProfile F) (kstr : string) :
  respectsExclusionZone E ->
  wellFormed mp ->
  (forall d,
      snd (topKDiscords (Some mp) kstr) = JSON 200 (BDiscord d) ->
      (exists k,
          Atoi kstr = Ok k /\
          matrixprofile.TopKDiscords mp k (Z.quot (matrixprofile.M mp) 2)
          = Ok (Discord_Groups d)) /\
      apart (Z.quot (matrixprofile.M mp) 2) (Discord_Groups d)) /\
  (forall E' : matrixprofile.Engine F,
      (forall k,
          @matrixprofile.TopKDiscords F E' mp k
            (Z.quot (matrixprofile.M mp) 2)
          = @matrixprofile.TopKDiscords F E mp k
              (Z.quot (matrixprofile.M mp) 2)) ->
      @matrixprofile.ZNormalize F E' = @matrixprofile.ZNormalize F E ->
      topKDiscords (E := E') (Some mp) kstr
      = topKDiscords (E := E) (Some mp) kstr).
Proof.
  intros Hzone Hwf. pose proof (half_window (proj1 Hwf)) as Hhalf.
  split.
  - intros d. unfold topKDiscords.
    cbn [sessions_Default session_Get values redis]. rewrite Hhalf.
    destruct (Atoi kstr) as [k|]; [|discriminate].
    destruct (matrixprofile.TopKDiscords mp k _) as [discords|] eqn:Hfound;
      [|discriminate].
    destruct (normalizeEach mp discords); cbn [snd]; try discriminate.
    intros Hd. injection Hd as <-. cbn [Discord_Groups].
    split; [eauto | exact (Hzone _ _ _ _ Hfound)].
  - intros E' Hsearch Hnorm. unfold topKDiscords.
    cbn [sessions_Default session_Get values redis]. rewrite Hhalf.
    destruct (Atoi kstr) as [k|]; [|reflexivity].
    rewrite Hsearch.
    destruct (matrixprofile.TopKDiscords mp k _) as [discords|];
      [|reflexivity].
    assert (Hsame : @normalizeEach F E' mp discords
                    = @normalizeEach F E mp discords).
    { induction discords as [|idx rest IH]; [reflexivity|].
      cbn [normalizeEach]. rewrite Hnorm, IH. reflexivity. }
    rewrite Hsame. reflexivity.
Qed.

Lemma discords_half_window_exclusion_witness :
  exists d,
    snd (topKDiscords (Some Demo.short) "3") = JSON 200 (BDiscord d) /\
    Discord_Groups d = [0; 1; 2] /\
    apart 1 (Discord_Groups d).
Proof.
  eexists. split; [vm_compute; reflexivity|]. split; [reflexivity|].
  refine (proj2 (proj1 (@discords_half_window_exclusion Z Demo.float
                          Demo.engine (Demo.platform (Ok Demo.minutes) 8)
                          Demo.short "3"
                          demo_respectsExclusionZone demo_short_wellFormed)
                   _ _)).
  vm_compute. reflexivity.
Defined.

(** ** More on [smooth] *)

Lemma smooth_from_nth
  (F : Type) (FF : Float64 F) (data : list F) (m : Z) (todo : list F) :
  forall (i0 : Z) (out : list F),
    smooth_from data m i0 todo = Some out ->
    forall j, (j < List.length todo)%nat ->
              nth_error out j = smooth_at data m (i0 + Z.of_nat j).
Proof.
  induction todo as [|d todo IH]; intros i0 out Hrun j Hj.
  - cbn in Hj. lia.
  - cbn [smooth_from] in Hrun.
    destruct (smooth_at data m i0) as [v|] eqn:Hv; [|discriminate].
    destruct (smooth_from data m (i0 + 1) todo) as [vs|] eqn:Hvs;
      [|discriminate].
    injection Hrun as <-. destruct j as [|j].
    + cbn [nth_error]. rewrite Z.add_0_r. symmetry. exact Hv.
    + cbn [nth_error]. rewrite (IH _ _ Hvs j) by (cbn in Hj; lia).
      f_equal. lia.
Qed.

(** X1.  Every entry of the slice [smooth] returns is the sum of the
    input over the positions [i - m/2 .. i + m/2] that exist, divided by
    their number; away from both ends that number is [2 * (m / 2) + 1]. *)
Theorem smooth_averages
  (F : Type) (FF : Float64 F) (data sdata : list F) (m : Z) (i : nat) :
  0 <= m <= int_max ->
  len data < 2 ^ 62 ->
  smooth data m = Some sdata ->
  (i < List.length data)%nat ->
  let s := Z.max 0 (Z.of_nat i - Z.quot m 2) in
  let e := Z.min (len data) (Z.of_nat i + Z.quot m 2 + 1) in
  nth_error sdata i
  = Some (fdiv
            (sum_range
               (firstn (Z.to_nat (e - s)) (skipn (Z.to_nat s) data)))
            (float64_of_int (e - s))) /\
  (Z.quot m 2 <= Z.of_nat i ->
   Z.of_nat i + Z.quot m 2 < len data ->
   e - s = 2 * Z.quot m 2 + 1).
Proof.
  intros Hm Hn Hrun Hi s e. split; [|subst s e; lia].
  unfold smooth in Hrun.
  rewrite (smooth_from_nth FF data m data 0 Hrun Hi). rewrite Z.add_0_l.
  assert (Hi' : 0 <= Z.of_nat i < len data) by (unfold len; lia).
  destruct (half_bounds Hm) as [_ Hq].
  unfold smooth_at. rewrite (window_clipped Hm Hn Hi'). fold s e.
  rewrite slice_in_range by (subst s e; lia).
  unfold int_sub. rewrite wrap_small by (subst s e; int_lia).
  reflexivity.
Qed.

Lemma smooth_averages_witness :
  nth_error [2; 2; 2; 3; 3] 2 = Some 2.
Proof.
  refine (proj1 (@smooth_averages Z Demo.float [3; 1; 4; 1; 5]
                   [2; 2; 2; 3; 3] 3 2%nat _ _ _ _)).
  - int_lia.
  - vm_compute. reflexivity.
  - vm_compute. reflexivity.
  - cbn. lia.
Defined.

(** X2.  A width of [-2] or below makes [smooth] panic on every non-empty
    slice: at the first position the bounds of the slice expression cross. *)
Theorem smooth_negative_width_panics
  (F : Type) (FF : Float64 F) (data : list F) (m : Z) :
  int_min <= m <= -2 ->
  data <> [] ->
  len data < 2 ^ 62 ->
  smooth data m = None.
Proof.
  intros Hm Hne Hn. destruct data as [|d rest]; [congruence|].
  unfold smooth. cbn [smooth_from].
  assert (Hq : - 2 ^ 62 <= Z.quot m 2 <= -1).
  { unfold int_min in Hm.
    change (2 ^ 63) with 9223372036854775808 in Hm.
    change (2 ^ 62) with 4611686018427387904.
    Z.quot_rem_to_equations. lia. }
  assert (Hw : window (len (d :: rest)) m 0
               = (- Z.quot m 2, Z.quot m 2 + 1)).
  { unfold window, int_div, int_sub, int_add.
    rewrite (wrap_small (z := Z.quot m 2)) by int_lia.
    rewrite (wrap_small (z := 0 - Z.quot m 2)) by int_lia.
    rewrite (wrap_small (z := 0 + Z.quot m 2)) by int_lia.
    rewrite (wrap_small (z := 0 + Z.quot m 2 + 1)) by int_lia.
    destruct (Z.ltb_spec (0 - Z.quot m 2) 0); [lia|].
    destruct (Z.gtb_spec (0 + Z.quot m 2 + 1) (len (d :: rest)));
      [unfold len in *; lia|].
    f_equal; lia. }
  unfold smooth_at. rewrite Hw. unfold slice.
  destruct (Z.leb_spec (- Z.quot m 2) (Z.quot m 2 + 1)); [lia|].
  rewrite andb_false_r. reflexivity.
Qed.

Lemma smooth_negative_width_panics_witness :
  smooth (F := Z) [1; 2; 3] (-2) = None.
Proof.
  apply (@smooth_negative_width_panics Z Demo.float [1; 2; 3] (-2)).
  - int_lia.
  - discriminate.
  - vm_compute. reflexivity.
Defined.

(** ** The series source, case by case *)

Lemma fetchData_week_long
  (F : Type) (FF : Float64 F) (P : Platform F) (data : Data F) :
  fetchData = Done data -> len (Data_Data data) = 24 * 60 * 7.
Proof.
  unfold fetchData. intros Hrun.
  destruct penguin_data as [raw|]; [|discriminate].
  destruct (smooth raw 21) as [sdata|]; [|discriminate].
  destruct (slice sdata 0 (24 * 60 * 7)) as [d|] eqn:Hd; [|discriminate].
  injection Hrun as <-. apply slice_Some in Hd. cbn [Data_Data]. lia.
Qed.

(** X3.  [fetchData] passes on the error of a file that cannot be read or
    decoded, panics on a file with fewer points than a week of minutes,
    and otherwise yields a series of exactly [24 * 60 * 7] points; it
    never yields a series of another length. *)
Theorem fetchData_outcomes
  (F : Type) (FF : Float64 F) (P : Platform F) :
  (forall err, penguin_data = Err err -> fetchData = Failed err) /\
  (forall raw,
      penguin_data = Ok raw -> len raw < 24 * 60 * 7 ->
      fetchData = Panics) /\
  (forall raw,
      penguin_data = Ok raw -> 24 * 60 * 7 <= len raw < 2 ^ 62 ->
      exists data,
        fetchData = Done data /\ len (Data_Data data) = 24 * 60 * 7) /\
  (forall data,
      fetchData = Done data -> len (Data_Data data) = 24 * 60 * 7).
Proof.
  split; [|split; [|split]].
  - intros err Hfile. unfold fetchData. rewrite Hfile. reflexivity.
  - intros raw Hfile Hshort. unfold fetchData. rewrite Hfile.
    destruct (@smooth_from_defined F FF raw 21) with (todo := raw) (i := 0)
      as [sdata [Hs Hl]]; try int_lia.
    unfold smooth. rewrite Hs. unfold slice.
    destruct (Z.leb_spec (24 * 60 * 7) (len sdata)) as [Hle|_].
    + unfold len in *. lia.
    + rewrite andb_false_r. reflexivity.
  - intros raw. apply fetchData_defined.
  - apply fetchData_week_long.
Qed.

(** X4.  [getData] answers 200 only with a full week of points, and its
    failure envelope, which carries the error of the file, never has the
    [cache_expired] flag set. *)
Theorem getData_answers
  (F : Type) (FF : Float64 F) (P : Platform F) :
  getData = Panicked \/
  (exists err,
      penguin_data = Err err /\
      getData = JSON 500 (BError {| Error := err; CacheExpired := false |}))
  \/
  (exists d,
      getData = JSON 200 (BData d) /\ len d = 24 * 60 * 7).
Proof.
  unfold getData.
  destruct fetchData as [data|err|] eqn:Hrun.
  - right. right. exists (Data_Data data). split; [reflexivity|].
    exact (fetchData_week_long FF P Hrun).
  - right. left. exists err. split; [|reflexivity].
    unfold fetchData in Hrun.
    destruct penguin_data as [raw|err']; [|congruence].
    destruct (smooth raw 21); [|discriminate].
    destruct (slice _ 0 _); discriminate.
  - left. reflexivity.
Qed.

(** ** Compute: what it stores and what it leaves alone *)




(** X6.  [calculateMP] writes the session only when it answers 200: on
    every other outcome the slot is as it was.  Its failure envelopes
    never have the [cache_expired] flag set. *)
Theorem compute_failure_keeps_session
  (F : Type) (FF : Float64 F) (E : matrixprofile.Engine F) (P : Platform F)
  (cache : option (matrixprofile.MatrixProfile F)) (bindM : result Z) :
  (fst (calculateMP cache bindM) = cache \/
   exists s, snd (calculateMP cache bindM) = JSON 200 (BSegment s)) /\
  (forall e,
      is_failure (snd (calculateMP cache bindM)) e ->
      CacheExpired e = false).
Proof.
  split.
  - unfold_handlers; repeat case_step; eauto.
  - intros e. unfold_handlers; repeat case_step;
      intros Hf; try discriminate Hf; injection Hf as <-; reflexivity.
Qed.


(** ** The derived queries and the session *)

(** X8.  The motif and discord queries only read the session: whatever
    the request and whatever they answer (also when they panic), the
    slot is left as it was found. *)
Theorem queries_read_only
  (F : Type) (FF : Float64 F) (E : matrixprofile.Engine F) (P : Platform F)
  (cache : option (matrixprofile.MatrixProfile F)) (qk qr kstr : string)
  (fetchMPCache : Session F -> option (matrixprofile.MatrixProfile F)) :
  fst (topKMotifs cache qk qr) = cache /\
  fst (motifs_go.topKMotifs fetchMPCache cache qk qr) = cache /\
  fst (topKDiscords cache kstr) = cache.
Proof.
  split; [|split]; unfold_handlers; repeat case_step; reflexivity.
Qed.


(** X9.  [getMP] never creates an artifact and never touches the series,
    the window length, the profile or its indices: an empty slot stays
    empty, and a cached artifact is either kept as it is or, for a
    recognized name whose artifact fits the store, replaced by itself
    with the annotation vector of that name. *)
Theorem getMP_keeps_profile
  (F : Type) (FF : Float64 F) (E : matrixprofile.Engine F) (P : Platform F)
  (bindName : result string) :
  fst (getMP None bindName) = None /\
  (forall mp,
      exists mp',
        fst (getMP (Some mp) bindName) = Some mp' /\
        matrixprofile.A mp' = matrixprofile.A mp /\
        matrixprofile.M mp' = matrixprofile.M mp /\
        matrixprofile.MP mp' = matrixprofile.MP mp /\
        matrixprofile.Idx mp' = matrixprofile.Idx mp /\
        (mp' = mp \/
         exists avname av,
           bindName = Ok avname /\ avOfName avname = Some av /\
           blobSize (matrixprofile.set_AV mp av) <= maxRedisBlobSize /\
           mp' = matrixprofile.set_AV mp av)).
Proof.
  split.
  - destruct bindName; reflexivity.
  - intros mp. destruct bindName as [avname|].
    + destruct (avOfName avname) as [av|] eqn:Hav.
      * rewrite (@getMP_resolved F FF E P mp avname av Hav). cbn [fst].
        destruct (Z.gtb_spec (blobSize (matrixprofile.set_AV mp av))
                    maxRedisBlobSize).
        -- exists mp. repeat split; auto.
        -- exists (matrixprofile.set_AV mp av). repeat split.
           right. exists avname, av. auto.
      * unfold getMP. cbn [sessions_Default session_Get values redis].
        rewrite Hav. exists mp. repeat split; auto.
    + exists mp. repeat split; auto.
Qed.


(** ** The routes, the counter and the headers *)

Lemma route_sound
  (F : Type) (FF : Float64 F) (E : matrixprofile.Engine F) (P : Platform F)
  (method path : string) (h : instrumented.Handler) :
  instrumented.route method path = Some h ->
  (method = "GET" /\ path = "/api/v1/data" /\ h = instrumented.getData) \/
  (method = "POST" /\ path = "/api/v1/calculate" /\
   h = instrumented.calculateMP) \/
  (method = "GET" /\ path = "/api/v1/topkmotifs" /\
   h = instrumented.topKMotifs) \/
  (method = "GET" /\ path = "/api/v1/topkdiscords" /\
   h = instrumented.topKDiscords) \/
  (method = "POST" /\ path = "/api/v1/mp" /\ h = instrumented.getMP).
Proof.
  unfold instrumented.route, instrumented.v1. cbn [find fst snd].
  change ("/api/v1" ++ "/data") with "/api/v1/data".
  change ("/api/v1" ++ "/calculate") with "/api/v1/calculate".
  change ("/api/v1" ++ "/topkmotifs") with "/api/v1/topkmotifs".
  change ("/api/v1" ++ "/topkdiscords") with "/api/v1/topkdiscords".
  change ("/api/v1" ++ "/mp") with "/api/v1/mp".
  repeat match goal with
         | |- context [String.eqb ?a ?b] =>
             destruct (String.eqb_spec a b); cbn [andb]
         end;
    intros Hh; try discriminate Hh; injection Hh as <-; subst; auto 10.
Qed.



Lemma buildCORSHeaders_sets (w : Wire) : corsSet (buildCORSHeaders w).
Proof.
  unfold corsSet, corsHeaders, buildCORSHeaders, header, Header.
  repeat constructor; reflexivity.
Qed.

(** X12.  Every handler but [getData] sets the four CORS headers before
    anything can fail, so they are on every answer it gives, failures and
    panics included; [getData] sets them only on the way to a 200 and
    leaves the headers alone when it fails. *)
Theorem cors_headers
  (F : Type) (FF : Float64 F) (E : matrixprofile.Engine F) (P : Platform F)
  (c : Request) (cache : option (matrixprofile.MatrixProfile F))
  (w : Wire)
  (served : Wire * (option (matrixprofile.MatrixProfile F) * Outcome F)) :
  instrumented.serve c cache w = Some served ->
  (Path c <> "/api/v1/data" -> corsSet (fst served)) /\
  (Path c = "/api/v1/data" -> corsOnSuccessOnly w served).
Proof.
  unfold instrumented.serve. intros Hserved.
  destruct (instrumented.route (Method c) (Path c)) as [h|] eqn:Hroute;
    [|discriminate].
  injection Hserved as <-.
  apply route_sound in Hroute.
  pose proof (buildCORSHeaders_sets w) as Hset.
  pose proof (buildCORSHeaders_sets
                (Header "Content-Type" "application/json" w)) as Hset'.
  destruct Hroute as [H|[H|[H|[H|H]]]];
    destruct H as (_ & -> & ->);
    (split; [intros Hp | intros Hp; try discriminate Hp]);
    try congruence; handler_paths; unfold corsOnSuccessOnly;
    cbn [fst snd Z.eqb Pos.eqb]; try reflexivity; assumption.
Qed.

Lemma cors_headers_witness :
  corsSet
    (fst (instrumented.topKDiscords discordsRequest (Some Demo.short) blank)).
Proof.
  refine (proj1 (@cors_headers Z Demo.float Demo.engine
                   (Demo.platform (Ok Demo.minutes) 8) discordsRequest
                   (Some Demo.short) blank _ eq_refl) _).
  cbn. discriminate.
Defined.



(** ** Indices the engine reports outside the series *)

Lemma normalizeEach_stray
  (F : Type) (E : matrixprofile.Engine F)
  (mp : matrixprofile.MatrixProfile F) (idx : Z) (post : list Z) :
  wellFormed mp ->
  ~ inSeries mp idx ->
  forall pre,
    Forall (fun i => exists s, presents mp i s) pre ->
    normalizeEach mp (pre ++ idx :: post) = Panics.
Proof.
  intros Hwf Hout. induction 1 as [|i pre [s Hs] Hpre IH]; cbn.
  - destruct (slice _ idx _) as [w|] eqn:Hw; [|reflexivity].
    exfalso. apply Hout. exact (proj1 (window_sliced Hwf idx Hw)).
  - destruct Hs as (H0 & Hhi & Hlen & Hok).
    assert (Hin : inSeries mp i).
    { unfold inSeries. unfold len in Hlen. lia. }
    rewrite (window_found Hwf Hin), Hok. cbn. rewrite IH. reflexivity.
Qed.

(** X14.  The handlers trust the indices of the engine: when the discord
    search reports an index whose window does not lie in the series, and
    the windows before it normalized, [topKDiscords] panics on the slice
    expression instead of answering, and the session is left as it was. *)
Theorem stray_index_panics
  (F : Type) (E : matrixprofile.Engine F)
  (mp : matrixprofile.MatrixProfile F) (kstr : string) (k idx : Z)
  (pre post : list Z) :
  wellFormed mp ->
  Atoi kstr = Ok k ->
  matrixprofile.TopKDiscords mp k (int_div (matrixprofile.M mp) 2)
  = Ok (pre ++ idx :: post)%list ->
  Forall (fun i => exists s, presents mp i s) pre ->
  ~ inSeries mp idx ->
  topKDiscords (Some mp) kstr = (Some mp, Panicked).
Proof.
  intros Hwf Hk Hfound Hpre Hout. unfold topKDiscords.
  cbn [sessions_Default session_Get values redis].
  rewrite Hk, Hfound, (normalizeEach_stray post Hwf Hout Hpre).
  reflexivity.
Qed.

Lemma stray_index_panics_witness :
  topKDiscords (Some tinyArtifact) "3" = (Some tinyArtifact, Panicked).
Proof.
  apply (@stray_index_panics Z Demo.engine tinyArtifact "3" 3 2 [0; 1] []).
  - unfold wellFormed, is_int, int_min, int_max. cbn. lia.
  - reflexivity.
  - reflexivity.
  - repeat constructor.
    + exists [0; -2]. unfold presents. cbn. repeat split; lia.
    + exists [0; 3]. unfold presents. cbn. repeat split; lia.
  - unfold inSeries. cbn. lia.
Defined.
